(** * Validated route builder ([server/public/model/client4_route.go])

    A shallow embedding of [clientRoute] and of the parts of the Go
    standard library it is built from ([strings], [path], [net/url],
    [fmt.Errorf]), followed by the properties of the builder.

    Go strings are byte sequences: they are modelled by [string], whose
    characters are the 256 values of [ascii]. *)

From Stdlib Require Import String Ascii List Bool Arith NArith Lia.
Import ListNotations.
Open Scope string_scope.

(** ** Errors

    A Go [error] is either [nil] or a value; the builder stores
    [option error].  [fmt.Errorf(format, operands...)] is kept symbolic:
    the format string and its operands, a [%q] operand being the quoted
    string and a [%w] operand the wrapped error.  [EscapeError] is the
    error of [net/url] for a malformed percent escape and [URLError] its
    [*url.Error], which reports the operation and the URL with the
    cause. *)

Inductive error : Type :=
| Errorf (format : string) (operands : list operand)
| EscapeError (s : string)
| URLError (op rawURL : string) (cause : error)
with operand : Type :=
| Quoted (v : string)
| Wrapped (e : error).

(** ** Bytes *)

Definition byte_between (lo hi c : ascii) : bool :=
  (N_of_ascii lo <=? N_of_ascii c)%N && (N_of_ascii c <=? N_of_ascii hi)%N.

Definition byte_in (c : ascii) (cs : string) : bool :=
  existsb (Ascii.eqb c) (list_ascii_of_string cs).

(** [s[1:]], for a non-empty [s]. *)
Definition from1 (s : string) : string :=
  match s with
  | EmptyString => EmptyString
  | String _ rest => rest
  end.

Fixpoint skip (n : nat) (s : string) : string :=
  match n, s with
  | S n', String _ rest => skip n' rest
  | _, _ => s
  end.

(** ** Package [strings] *)

Module strings.

Definition HasPrefix (s pre : string) : bool := String.prefix pre s.

Definition HasSuffix (s suffix : string) : bool :=
  (String.length suffix <=? String.length s)%nat
  && String.eqb (skip (String.length s - String.length suffix) s) suffix.

Fixpoint Contains (s substr : string) : bool :=
  String.prefix substr s
  || match s with
     | EmptyString => false
     | String _ rest => Contains rest substr
     end.

(** [Cut(s, sep)] returns [(before, after, found)]. *)
Fixpoint Cut (s sep : string) : string * string * bool :=
  if String.prefix sep s then (EmptyString, skip (String.length sep) s, true)
  else match s with
       | EmptyString => (EmptyString, EmptyString, false)
       | String c rest =>
           let '(before, after, found) := Cut rest sep in
           (String c before, after, found)
       end.

End strings.

(** ** Package [path] *)

Module path.

(** The elements of a path: the text between consecutive ['/'].  The
    loop of [Clean] reads the path one such element at a time (a ['/']
    at the read index is its "empty path element" case). *)
Fixpoint elements (p : string) : list string :=
  match p with
  | EmptyString => [EmptyString]
  | String c rest =>
      if Ascii.eqb c "/" then EmptyString :: elements rest
      else match elements rest with
           | e :: es => String c e :: es
           | [] => [String c EmptyString]
           end
  end.

(** [out.w--; for out.w > dotdot && out.index(out.w) != '/' { out.w-- }]:
    the write index after the loop, entered with [w] already
    decremented once. *)
Fixpoint back (out : string) (dotdot w : nat) : nat :=
  match w with
  | 0 => 0
  | S w' =>
      if (dotdot <? w)%nat
         && negb (match String.get w out with
                  | Some c => Ascii.eqb c "/"
                  | None => false
                  end)
      then back out dotdot w'
      else w
  end.

Definition backtrack (out : string) (dotdot : nat) : string :=
  String.substring 0 (back out dotdot (String.length out - 1)) out.

(** One iteration of the loop of [Clean] on the element [e]; the state
    is the output written so far and the index [dotdot]. *)
Definition clean_step (rooted : bool) (st : string * nat) (e : string)
  : string * nat :=
  let (out, dotdot) := st in
  if String.eqb e "" then st
  else if String.eqb e "." then st
  else if String.eqb e ".." then
    if (dotdot <? String.length out)%nat then (backtrack out dotdot, dotdot)
    else if negb rooted then
      let out' := (if (0 <? String.length out)%nat then out ++ "/" else out) ++ ".." in
      (out', String.length out')
    else st
  else
    ((if (rooted && negb (String.length out =? 1)%nat)
         || (negb rooted && negb (String.length out =? 0)%nat)
      then out ++ "/" else out) ++ e, dotdot).

Definition Clean (p : string) : string :=
  if String.eqb p "" then "."
  else
    let rooted := strings.HasPrefix p "/" in
    let start := if rooted then ("/", 1) else ("", 0) in
    let out := fst (fold_left (clean_step rooted) (elements p) start) in
    if (String.length out =? 0)%nat then "." else out.

(** The buffer [Join] builds before cleaning it. *)
Fixpoint join_buf (buf : string) (elem : list string) : string :=
  match elem with
  | [] => buf
  | e :: es =>
      if (0 <? String.length buf)%nat || negb (String.eqb e "") then
        join_buf ((if (0 <? String.length buf)%nat then buf ++ "/" else buf) ++ e) es
      else join_buf buf es
  end.

Definition Join (elem : list string) : string :=
  if (fold_left (fun n e => n + String.length e) elem 0 =? 0)%nat then ""
  else Clean (join_buf "" elem).

End path.

(** ** Package [net/url]

    Only the two escaping modes the builder reaches are modelled, and of
    [url.URL] only the fields [Path] and [RawPath]: no function of
    [client4_route.go] writes any other field, so they keep their zero
    value. *)

Module url.

Inductive encoding : Type := encodePath | encodePathSegment.

Definition upperhex : string := "0123456789ABCDEF".

Definition ishex (c : ascii) : bool :=
  byte_between "0" "9" c || byte_between "a" "f" c || byte_between "A" "F" c.

(** [unhex] is called on hexadecimal digits only. *)
Definition unhex (c : ascii) : N :=
  if byte_between "0" "9" c then N_of_ascii c - N_of_ascii "0"
  else if byte_between "a" "f" c then N_of_ascii c - N_of_ascii "a" + 10
  else if byte_between "A" "F" c then N_of_ascii c - N_of_ascii "A" + 10
  else 0.

Definition shouldEscape (c : ascii) (mode : encoding) : bool :=
  if byte_between "a" "z" c || byte_between "A" "Z" c || byte_between "0" "9" c
  then false
  else if byte_in c "-_.~" then false
  else if byte_in c "$&+,/:;=?@" then
    match mode with
    | encodePath => Ascii.eqb c "?"
    | encodePathSegment =>
        Ascii.eqb c "/" || Ascii.eqb c ";" || Ascii.eqb c "," || Ascii.eqb c "?"
    end
  else true.

Definition hexdigit (n : N) : ascii :=
  match String.get (N.to_nat n) upperhex with
  | Some d => d
  | None => "0"%char
  end.

Fixpoint escape (s : string) (mode : encoding) : string :=
  match s with
  | EmptyString => EmptyString
  | String c rest =>
      if shouldEscape c mode then
        String "%" (String (hexdigit (N.shiftr (N_of_ascii c) 4))
                   (String (hexdigit (N.land (N_of_ascii c) 15))
                      (escape rest mode)))
      else String c (escape rest mode)
  end.

(** First pass of [unescape]: the first malformed escape, if any. *)
Fixpoint malformed (s : string) : option error :=
  match s with
  | EmptyString => None
  | String c rest =>
      if Ascii.eqb c "%" then
        match rest with
        | String a (String b rest') =>
            if ishex a && ishex b then malformed rest'
            else Some (EscapeError (String.substring 0 3 s))
        | _ => Some (EscapeError (String.substring 0 3 s))
        end
      else malformed rest
  end.

(** Second pass of [unescape], which runs on text the first pass
    accepted (every ['%'] has its two digits); in the two path modes
    ['+'] stands for itself. *)
Fixpoint decode (s : string) : string :=
  match s with
  | EmptyString => EmptyString
  | String c rest =>
      if Ascii.eqb c "%" then
        match rest with
        | String a (String b rest') =>
            String (ascii_of_N (N.lor (N.shiftl (unhex a) 4) (unhex b)))
                   (decode rest')
        | _ => EmptyString
        end
      else String c (decode rest)
  end.

Definition unescape (s : string) (mode : encoding) : string * option error :=
  match malformed s with
  | Some e => ("", Some e)
  | None => (decode s, None)
  end.

Definition PathEscape (s : string) : string := escape s encodePathSegment.

Definition PathUnescape (s : string) : string * option error :=
  unescape s encodePathSegment.

Record URL : Type := { Path : string; RawPath : string }.

(** The zero value [url.URL{}]. *)
Definition zero : URL := {| Path := ""; RawPath := "" |}.

(** [u.setPath(p)]: the updated URL and the error; on error [u] is left
    as it was. *)
Definition setPath (u : URL) (p : string) : URL * option error :=
  match unescape p encodePath with
  | (_, Some e) => (u, Some e)
  | (path, None) =>
      if String.eqb p (escape path encodePath)
      then ({| Path := path; RawPath := "" |}, None)
      else ({| Path := path; RawPath := p |}, None)
  end.

Definition validEncoded (s : string) (mode : encoding) : bool :=
  forallb (fun c =>
             if byte_in c "!$&'()*+,;=:@" then true
             else if byte_in c "[]" then true
             else if Ascii.eqb c "%" then true
             else negb (shouldEscape c mode))
          (list_ascii_of_string s).

Definition EscapedPath (u : URL) : string :=
  let fallback :=
    if String.eqb (Path u) "*" then "*" else escape (Path u) encodePath in
  if negb (String.eqb (RawPath u) "") && validEncoded (RawPath u) encodePath then
    match unescape (RawPath u) encodePath with
    | (p, None) => if String.eqb p (Path u) then RawPath u else fallback
    | (_, Some _) => fallback
    end
  else fallback.

(** [u.String()] for a URL that has only a path: nothing is written
    before the path, so a first segment with a colon gets the prefix
    ["./"]. *)
Definition URL_String (u : URL) : string :=
  let p := EscapedPath u in
  let '(segment, _, _) := strings.Cut p "/" in
  (if strings.Contains segment ":" then "./" else "") ++ p.

(** The method [u.JoinPath(elem...)]; the error of [setPath] is
    dropped, as in the library. *)
Definition URL_JoinPath (u : URL) (elem : list string) : URL :=
  let elem := EscapedPath u :: elem in
  let elem0 := hd "" elem in
  let p :=
    if negb (strings.HasPrefix elem0 "/")
    then from1 (path.Join (("/" ++ elem0) :: tl elem))
    else path.Join elem in
  let p :=
    if strings.HasSuffix (last elem "") "/" && negb (strings.HasSuffix p "/")
    then p ++ "/" else p in
  fst (setPath u p).

(** [Parse(rawURL)] for a raw URL that is only a path (no scheme,
    authority, query or fragment), where it comes down to [setPath] on
    a fresh URL.  The builder parses the constant ["/"] only. *)
Definition Parse (rawURL : string) : URL * option error :=
  match setPath zero rawURL with
  | (u, Some e) => (u, Some (URLError "parse" rawURL e))
  | (u, None) => (u, None)
  end.

(** The package function [JoinPath(base, elem...)]. *)
Definition JoinPath (base : string) (elem : list string)
  : string * option error :=
  match Parse base with
  | (_, Some e) => ("", Some e)
  | (u, None) => (URL_String (URL_JoinPath u elem), None)
  end.

End url.

(** ** Package [model]: [clientRoute] *)

Module model.

Record clientRoute : Type := { url : url.URL; err : option error }.

(** The zero value [clientRoute{}], the empty builder. *)
Definition empty : clientRoute := {| url := url.zero; err := None |}.

Definition newClientRoute (v : string) : clientRoute :=
  {| url := url.URL_JoinPath url.zero [url.PathEscape v]; err := None |}.

Definition JoinRoute (r newRoute : clientRoute) : clientRoute :=
  match err r with
  | Some _ => r
  | None =>
      match err newRoute with
      | Some e => {| url := url r; err := Some e |}
      | None =>
          {| url := url.URL_JoinPath (url r) [url.URL_String (url newRoute)];
             err := None |}
      end
  end.

Definition JoinSegment (r : clientRoute) (v : string) : clientRoute :=
  if strings.Contains v "/" then
    {| url := url r; err := Some (Errorf "%q contains slashes" [Quoted v]) |}
  else JoinRoute r (newClientRoute v).

Definition JoinSegments (r : clientRoute) (values : list string) : clientRoute :=
  fold_left JoinSegment values r.

(** The validators of package [model] live in other files; the typed
    joins take them as a parameter. *)
Record Validators : Type := {
  IsValidId : string -> bool;
  IsValidUsername : string -> bool;
  IsValidTeamName : string -> bool;
  IsValidChannelIdentifier : string -> bool;
  IsValidEmail : string -> bool;
  IsValidEmojiName : string -> option error
}.

Section Validated.

Variable V : Validators.

Definition JoinId (r : clientRoute) (v : string) : clientRoute :=
  if negb (IsValidId V v) then
    {| url := url r; err := Some (Errorf "%q is not a valid ID" [Quoted v]) |}
  else JoinSegment r v.

Definition JoinUsername (r : clientRoute) (v : string) : clientRoute :=
  if negb (IsValidUsername V v) then
    {| url := url r; err := Some (Errorf "%q is not a valid username" [Quoted v]) |}
  else JoinSegment r v.

Definition JoinTeamname (r : clientRoute) (v : string) : clientRoute :=
  if negb (IsValidTeamName V v) then
    {| url := url r; err := Some (Errorf "%q is not a valid team name" [Quoted v]) |}
  else JoinSegment r v.

Definition JoinChannelname (r : clientRoute) (v : string) : clientRoute :=
  if negb (IsValidChannelIdentifier V v) then
    {| url := url r;
       err := Some (Errorf "%q is not a valid channel name" [Quoted v]) |}
  else JoinSegment r v.

Definition JoinEmail (r : clientRoute) (v : string) : clientRoute :=
  if negb (IsValidEmail V v) then
    {| url := url r; err := Some (Errorf "%q is not a valid email" [Quoted v]) |}
  else JoinSegment r v.

Definition JoinEmojiname (r : clientRoute) (v : string) : clientRoute :=
  match IsValidEmojiName V v with
  | Some e =>
      {| url := url r;
         err := Some (Errorf "%q is not a valid emoji name: %w"
                             [Quoted v; Wrapped e]) |}
  | None => JoinSegment r v
  end.

End Validated.

(** [r.URL()]: the pointer result is [None] for [nil].  The copy keeps
    the [RawPath] of [r.url]; only [Path] is overwritten. *)
Definition URL (r : clientRoute) : option url.URL * option error :=
  match err r with
  | Some e => (None, Some e)
  | None =>
      match url.JoinPath "/" [url.URL_String (url r)] with
      | (_, Some e) => (None, Some e)
      | (p, None) =>
          (Some {| url.Path := p; url.RawPath := url.RawPath (url r) |}, None)
      end
  end.

Definition String (r : clientRoute) : string * option error :=
  match err r with
  | Some e => ("", Some e)
  | None => url.JoinPath "/" [url.URL_String (url r)]
  end.

End model.

(** * Vocabulary of the properties *)

(** [r.err = e; return r] *)
Definition set_err (r : model.clientRoute) (e : error) : model.clientRoute :=
  {| model.url := model.url r; model.err := Some e |}.

(** The error of [JoinSegment]. *)
Definition slashes (v : string) : error := Errorf "%q contains slashes" [Quoted v].

(** A "real path element" of [path.Clean]: not empty, not ["."], not
    [".."]. *)
Definition real (e : string) : bool :=
  negb (String.eqb e "") && negb (String.eqb e ".") && negb (String.eqb e "..").

(** Escaped text [net/url] reads back as it is: every escape is
    complete and every byte is valid in a path. *)
Definition wellformed (p : string) : bool :=
  match url.malformed p with None => true | Some _ => false end
  && url.validEncoded p url.encodePath.

(** One escaped path segment. *)
Definition token (t : string) : bool :=
  real t && negb (strings.Contains t "/") && wellformed t.

(** [path_of u ts]: the escaped path of [u] is the tokens [ts] joined
    by ['/']. *)
Definition path_of (u : url.URL) (ts : list string) : Prop :=
  Forall (fun t => token t = true) ts
  /\ url.EscapedPath u = String.concat "/" ts
  /\ url.EscapedPath u <> "%2A".

(** The path of a builder as a sequence: the non-empty elements of its
    escaped path. *)
Definition segments (u : url.URL) : list string :=
  filter (fun e => negb (String.eqb e "")) (path.elements (url.EscapedPath u)).

Definition clean (r : model.clientRoute) : Prop :=
  path_of (model.url r) (segments (model.url r)).

(** The segments of [newClientRoute v]. *)
Definition new_segments (v : string) : list string :=
  if String.eqb v "" || String.eqb v "." || String.eqb v ".." then []
  else if String.eqb v "*" then ["*"]
  else [url.PathEscape v].

(** The fold of [JoinSegments] as the specification words it: it stops
    at the first segment that fails. *)
Fixpoint JoinSegments_first_error (r : model.clientRoute) (values : list string)
  : model.clientRoute :=
  match values with
  | [] => r
  | v :: rest =>
      let r' := model.JoinSegment r v in
      match model.err r' with
      | Some _ => r'
      | None => JoinSegments_first_error r' rest
      end
  end.

(** The builders: the values the package makes, from the empty builder,
    [newClientRoute] and a literal that carries an error, by the Join
    methods. *)
Inductive built (V : model.Validators) : model.clientRoute -> Prop :=
| built_empty : built V model.empty
| built_failed (e : error) : built V (set_err model.empty e)
| built_new (v : string) : built V (model.newClientRoute v)
| built_JoinRoute r o : built V r -> built V o -> built V (model.JoinRoute r o)
| built_JoinSegment r v : built V r -> built V (model.JoinSegment r v)
| built_JoinSegments r vs : built V r -> built V (model.JoinSegments r vs)
| built_JoinId r v : built V r -> built V (model.JoinId V r v)
| built_JoinUsername r v : built V r -> built V (model.JoinUsername V r v)
| built_JoinTeamname r v : built V r -> built V (model.JoinTeamname V r v)
| built_JoinChannelname r v :
    built V r -> built V (model.JoinChannelname V r v)
| built_JoinEmail r v : built V r -> built V (model.JoinEmail V r v)
| built_JoinEmojiname r v : built V r -> built V (model.JoinEmojiname V r v).

(** One step of a chain of joins. *)
Inductive Join : Type :=
| ByRoute (o : model.clientRoute)
| BySegment (v : string)
| BySegments (vs : list string)
| ById (v : string)
| ByUsername (v : string)
| ByTeamname (v : string)
| ByChannelname (v : string)
| ByEmail (v : string)
| ByEmojiname (v : string).

Definition join (V : model.Validators) (r : model.clientRoute) (j : Join)
  : model.clientRoute :=
  match j with
  | ByRoute o => model.JoinRoute r o
  | BySegment v => model.JoinSegment r v
  | BySegments vs => model.JoinSegments r vs
  | ById v => model.JoinId V r v
  | ByUsername v => model.JoinUsername V r v
  | ByTeamname v => model.JoinTeamname V r v
  | ByChannelname v => model.JoinChannelname V r v
  | ByEmail v => model.JoinEmail V r v
  | ByEmojiname v => model.JoinEmojiname V r v
  end.

Definition chain (V : model.Validators) (r : model.clientRoute) (js : list Join)
  : model.clientRoute :=
  fold_left (join V) js r.

(** Validators to run the typed joins on: identifiers of 26 bytes, any
    non-empty name. *)
Definition sample : model.Validators :=
  {| model.IsValidId := fun v => (String.length v =? 26)%nat;
     model.IsValidUsername := fun v => negb (String.eqb v "");
     model.IsValidTeamName := fun v => negb (String.eqb v "");
     model.IsValidChannelIdentifier := fun v => negb (String.eqb v "");
     model.IsValidEmail := fun v => strings.Contains v "@";
     model.IsValidEmojiName := fun v =>
       if String.eqb v "" then Some (Errorf "invalid emoji name" []) else None |}.

(** The error a join stores by its own check, whatever the receiver
    holds: the validator's, then the slash check; for [JoinSegments] the
    error of the last segment with a slash.  [JoinRoute] checks nothing
    of its own. *)
Definition slash_error (v : string) : option error :=
  if strings.Contains v "/" then Some (slashes v) else None.

Definition own_error (V : model.Validators) (j : Join) : option error :=
  match j with
  | ByRoute _ => None
  | BySegment v => slash_error v
  | BySegments vs =>
      fold_left (fun acc v => if strings.Contains v "/" then Some (slashes v) else acc)
                vs None
  | ById v =>
      if negb (model.IsValidId V v)
      then Some (Errorf "%q is not a valid ID" [Quoted v]) else slash_error v
  | ByUsername v =>
      if negb (model.IsValidUsername V v)
      then Some (Errorf "%q is not a valid username" [Quoted v]) else slash_error v
  | ByTeamname v =>
      if negb (model.IsValidTeamName V v)
      then Some (Errorf "%q is not a valid team name" [Quoted v]) else slash_error v
  | ByChannelname v =>
      if negb (model.IsValidChannelIdentifier V v)
      then Some (Errorf "%q is not a valid channel name" [Quoted v])
      else slash_error v
  | ByEmail v =>
      if negb (model.IsValidEmail V v)
      then Some (Errorf "%q is not a valid email" [Quoted v]) else slash_error v
  | ByEmojiname v =>
      match model.IsValidEmojiName V v with
      | Some detail =>
          Some (Errorf "%q is not a valid emoji name: %w" [Quoted v; Wrapped detail])
      | None => slash_error v
      end
  end.

(** A raw segment that [JoinSegment] appends: no slash, and not one of
    the elements path cleaning drops. *)
Definition raw_ok (v : string) : bool :=
  real v && negb (strings.Contains v "/").

(** * Properties *)

(** ** The embedding on known results *)

(** [path.Clean] on the cases of the library's documentation and test
    table. *)
Example Clean_cases :
  map path.Clean
      [""; "abc"; "abc/def"; "."; ".."; "../.."; "../../abc"; "/abc"; "/";
       "abc/"; "./"; "../"; "/abc/"; "abc//def//ghi"; "//abc"; "//abc//";
       "abc/./def"; "/./abc/def"; "abc/."; "abc/def/ghi/../jkl";
       "abc/def/../ghi/../jkl"; "abc/def/.."; "abc/def/../.."; "/abc/def/../..";
       "abc/def/../../.."; "/abc/def/../../..";
       "abc/def/../../../ghi/jkl/../../../mno"; "abc/./../def";
       "abc/../../././../def"]
  = ["."; "abc"; "abc/def"; "."; ".."; "../.."; "../../abc"; "/abc"; "/";
     "abc"; "."; ".."; "/abc"; "abc/def/ghi"; "/abc"; "/abc";
     "abc/def"; "/abc/def"; "abc"; "abc/def/jkl";
     "abc/jkl"; "abc"; "."; "/";
     ".."; "/";
     "../../mno"; "def";
     "../../def"].
Proof. reflexivity. Qed.

(** The expectations of [client4_route_test.go] that need no
    validator. *)
Example TestNewClientRoute :
  map (fun v => model.String (model.newClientRoute v))
      ["api"; "hello world"; "api/v4"; ""]
  = [("/api", None); ("/hello%20world", None); ("/api%2Fv4", None); ("/", None)].
Proof. reflexivity. Qed.

Example TestClientRouteJoinRoute :
  let failed := set_err model.empty (Errorf "test error" []) in
  model.String (model.JoinRoute (model.newClientRoute "api") (model.newClientRoute "v4"))
  = ("/api/v4", None)
  /\ model.String (model.JoinRoute failed (model.newClientRoute "v4"))
     = ("", Some (Errorf "test error" []))
  /\ model.String (model.JoinRoute (model.newClientRoute "api") failed)
     = ("", Some (Errorf "test error" [])).
Proof. repeat split. Qed.

Example TestClientRouteJoinSegment :
  map (fun v => model.String (model.JoinSegment (model.newClientRoute "api") v))
      ["v4"; "hello world"; "v4/users"; ""]
  = [("/api/v4", None); ("/api/hello%20world", None);
     ("", Some (slashes "v4/users")); ("/api", None)].
Proof. reflexivity. Qed.

Example TestClientRouteJoinSegments :
  map (fun vs => model.String (model.JoinSegments (model.newClientRoute "api") vs))
      [["v4"; "users"; "me"]; []; ["v4"; "users/me"]]
  = [("/api/v4/users/me", None); ("/api", None); ("", Some (slashes "users/me"))].
Proof. reflexivity. Qed.

Example TestClientRouteURL :
  let complex :=
    model.JoinSegment
      (model.JoinRoute (model.newClientRoute "api") (model.newClientRoute "v4"))
      "users" in
  model.URL (model.JoinRoute (model.newClientRoute "api") (model.newClientRoute "v4"))
  = (Some {| url.Path := "/api/v4"; url.RawPath := "" |}, None)
  /\ model.URL (set_err model.empty (Errorf "test error" []))
     = (None, Some (Errorf "test error" []))
  /\ model.URL model.empty = (Some {| url.Path := "/"; url.RawPath := "" |}, None)
  /\ model.URL complex
     = (Some {| url.Path := "/api/v4/users"; url.RawPath := "" |}, None).
Proof. repeat split. Qed.

Example TestClientRouteErrorPropagation :
  model.String
    (model.JoinSegment
       (model.JoinSegment
          (model.JoinSegment (model.newClientRoute "api") "invalid/segment") "v4")
       "users")
  = ("", Some (slashes "invalid/segment")).
Proof. reflexivity. Qed.

(** ** Bytes and escapes *)

Ltac each_byte c := destruct c as [[] [] [] [] [] [] [] []].

Lemma hex_roundtrip (c : ascii) :
  let hi := url.hexdigit (N.shiftr (N_of_ascii c) 4) in
  let lo := url.hexdigit (N.land (N_of_ascii c) 15) in
  url.ishex hi && url.ishex lo = true
  /\ ascii_of_N (N.lor (N.shiftl (url.unhex hi) 4) (url.unhex lo)) = c.
Proof. each_byte c; vm_compute; split; reflexivity. Qed.

Lemma kept_byte_not_percent (c : ascii) (mode : url.encoding) :
  url.shouldEscape c mode = false -> Ascii.eqb c "%" = false.
Proof. each_byte c; destruct mode; vm_compute; congruence. Qed.

Lemma malformed_escape (s : string) (mode : url.encoding) :
  url.malformed (url.escape s mode) = None.
Proof.
  induction s as [|c s IH]; [reflexivity|].
  cbn [url.escape].
  destruct (url.shouldEscape c mode) eqn:E.
  - destruct (hex_roundtrip c) as [H _]. cbn zeta in H.
    cbn [url.malformed]. rewrite H. exact IH.
  - cbn [url.malformed]. rewrite (kept_byte_not_percent _ _ E). exact IH.
Qed.

Lemma decode_escape (s : string) (mode : url.encoding) :
  url.decode (url.escape s mode) = s.
Proof.
  induction s as [|c s IH]; [reflexivity|].
  cbn [url.escape].
  destruct (url.shouldEscape c mode) eqn:E.
  - destruct (hex_roundtrip c) as [_ H]. cbn zeta in H.
    cbn [url.decode]. rewrite H, IH. reflexivity.
  - cbn [url.decode]. rewrite (kept_byte_not_percent _ _ E), IH. reflexivity.
Qed.

Lemma unescape_escape (s : string) (m m' : url.encoding) :
  url.unescape (url.escape s m) m' = (s, None).
Proof.
  unfold url.unescape. now rewrite malformed_escape, decode_escape.
Qed.

(** ** Strings *)

Lemma append_assoc (a b c : string) : (a ++ b) ++ c = a ++ (b ++ c).
Proof. induction a as [|x a IH]; cbn; [reflexivity|now rewrite IH]. Qed.

Lemma prefix_slash (c : ascii) (s : string) :
  String.prefix "/" (String c s) = Ascii.eqb c "/".
Proof.
  cbn [String.prefix]. destruct (ascii_dec "/" c) as [<-|N].
  - now destruct s.
  - symmetry. apply Ascii.eqb_neq. congruence.
Qed.

Lemma Contains_slash_cons (c : ascii) (s : string) :
  strings.Contains (String c s) "/" = Ascii.eqb c "/" || strings.Contains s "/".
Proof. cbn [strings.Contains]. now rewrite prefix_slash. Qed.

Lemma elements_not_nil (p : string) : path.elements p <> [].
Proof.
  destruct p as [|c p]; cbn [path.elements]; [discriminate|].
  destruct (Ascii.eqb c "/"); [discriminate|].
  destruct (path.elements p); discriminate.
Qed.

Lemma elements_app (a b : string) :
  path.elements (a ++ String "/" b) = (path.elements a ++ path.elements b)%list.
Proof.
  induction a as [|c a IH]; [reflexivity|].
  cbn [append path.elements]. rewrite IH.
  destruct (Ascii.eqb c "/"); [reflexivity|].
  destruct (path.elements a) eqn:E; [now apply elements_not_nil in E|reflexivity].
Qed.

Lemma elements_noslash (t : string) :
  strings.Contains t "/" = false -> path.elements t = [t].
Proof.
  induction t as [|c t IH]; [reflexivity|].
  rewrite Contains_slash_cons. intros [Hc Ht]%orb_false_iff.
  cbn [path.elements]. now rewrite Hc, (IH Ht).
Qed.

Lemma elements_concat (ts : list string) :
  Forall (fun t => strings.Contains t "/" = false) ts -> ts <> [] ->
  path.elements (String.concat "/" ts) = ts.
Proof.
  induction 1 as [|t ts Ht Hts IH]; [congruence|]. intros _.
  destruct ts as [|t' ts]; [now apply elements_noslash|].
  change (String.concat "/" (t :: t' :: ts))
    with (t ++ String "/" (String.concat "/" (t' :: ts))).
  rewrite elements_app, (elements_noslash _ Ht), IH; [reflexivity|discriminate].
Qed.

Lemma concat_snoc (ts : list string) (e : string) :
  ts <> [] ->
  String.concat "/" (ts ++ [e]) = String.concat "/" ts ++ String "/" e.
Proof.
  induction ts as [|t ts IH]; [congruence|]. intros _.
  destruct ts as [|t' ts]; [reflexivity|].
  change (String.concat "/" ((t :: t' :: ts) ++ [e]))
    with (t ++ String "/" (String.concat "/" ((t' :: ts) ++ [e]))).
  rewrite IH by discriminate.
  change (String.concat "/" (t :: t' :: ts))
    with (t ++ String "/" (String.concat "/" (t' :: ts))).
  now rewrite !append_assoc.
Qed.

Lemma concat_empty (ts : list string) :
  Forall (fun t => t <> "") ts -> String.concat "/" ts = "" -> ts = [].
Proof.
  destruct 1 as [|t ts Ht Hts]; [reflexivity|].
  destruct ts; cbn [String.concat]; [congruence|].
  destruct t; [congruence|discriminate].
Qed.

Lemma length_one_root (x : string) :
  (String.length (String "/" x) =? 1)%nat = String.eqb x "".
Proof. now destruct x. Qed.

(** The loop of [Clean] on a rooted path without [".."] elements keeps
    the real elements, in order. *)
Lemma clean_fold_real (es ts0 : list string) :
  Forall (fun t => t <> "") ts0 ->
  Forall (fun e => String.eqb e ".." = false) es ->
  fold_left (path.clean_step true) es (String "/" (String.concat "/" ts0), 1)
  = (String "/" (String.concat "/" (ts0 ++ filter real es)), 1).
Proof.
  revert ts0. induction es as [|e es IH]; intros ts0 H0 Hes.
  - cbn. now rewrite app_nil_r.
  - inversion Hes as [|? ? He Hes']; subst.
    cbn [fold_left filter]. unfold real at 1. rewrite He.
    unfold path.clean_step at 2.
    destruct (String.eqb e "") eqn:E1; [now apply IH|].
    destruct (String.eqb e ".") eqn:E2; [now apply IH|].
    rewrite He. cbn [negb andb orb]. rewrite length_one_root.
    assert (Hne : e <> "") by now apply String.eqb_neq.
    destruct (String.eqb (String.concat "/" ts0) "") eqn:E0.
    + apply String.eqb_eq in E0. apply concat_empty in E0; [subst ts0|assumption].
      cbn [negb andb orb app String.concat append].
      apply (IH [e]); [now constructor|assumption].
    + assert (ts0 <> []) by (intros ->; discriminate).
      cbn [negb andb orb]. replace ((String "/" (String.concat "/" ts0) ++ "/") ++ e)
        with (String "/" (String.concat "/" (ts0 ++ [e]))).
      * change (ts0 ++ e :: filter real es)%list with (ts0 ++ [e] ++ filter real es)%list.
        rewrite app_assoc. apply IH; [|assumption].
        apply Forall_app; split; [assumption|now constructor].
      * rewrite concat_snoc by assumption. cbn [append].
        now rewrite !append_assoc.
Qed.

Lemma Clean_rooted_real (x : string) :
  Forall (fun e => String.eqb e ".." = false) (path.elements x) ->
  path.Clean (String "/" x)
  = String "/" (String.concat "/" (filter real (path.elements x))).
Proof.
  intros H. unfold path.Clean, strings.HasPrefix.
  rewrite prefix_slash. cbn [String.eqb Ascii.eqb Bool.eqb path.elements fold_left].
  change (path.clean_step true ("/", 1) "") with (String "/" (String.concat "/" []), 1).
  rewrite (clean_fold_real _ [] (Forall_nil _) H). reflexivity.
Qed.

Lemma Join_rooted (a s : string) :
  path.Join [String "/" a; s] = path.Clean (String "/" (a ++ String "/" s)).
Proof.
  unfold path.Join. cbn [fold_left String.length Nat.add Nat.eqb].
  cbn [path.join_buf String.length Nat.ltb Nat.leb orb append].
  now rewrite append_assoc.
Qed.

(** ** Well-formed escaped text *)

Lemma malformed_app (a b : string) :
  url.malformed a = None -> url.malformed (a ++ b) = url.malformed b.
Proof.
  remember (String.length a) as n eqn:Hn.
  revert a Hn. induction n as [n IH] using lt_wf_ind. intros a Hn Ha.
  destruct a as [|c a]; [reflexivity|].
  cbn [url.malformed append] in *.
  destruct (Ascii.eqb c "%").
  - destruct a as [|x [|y a]]; try discriminate.
    cbn [append]. destruct (url.ishex x && url.ishex y); [|discriminate].
    apply (IH (String.length a)); [cbn in Hn; lia|reflexivity|assumption].
  - apply (IH (String.length a)); [cbn in Hn; lia|reflexivity|assumption].
Qed.

Lemma validEncoded_app (a b : string) (m : url.encoding) :
  url.validEncoded (a ++ b) m = url.validEncoded a m && url.validEncoded b m.
Proof.
  unfold url.validEncoded.
  induction a as [|c a IH]; [reflexivity|].
  cbn [append list_ascii_of_string forallb]. now rewrite IH, andb_assoc.
Qed.

Lemma wellformed_app (a b : string) :
  wellformed a = true -> wellformed b = true -> wellformed (a ++ b) = true.
Proof.
  unfold wellformed. intros [Ha Va]%andb_true_iff [Hb Vb]%andb_true_iff.
  destruct (url.malformed a) eqn:Ma; [discriminate|].
  now rewrite (malformed_app _ _ Ma), validEncoded_app, Va, Vb, andb_true_r.
Qed.

Lemma wellformed_concat (ts : list string) :
  Forall (fun t => wellformed t = true) ts ->
  wellformed (String.concat "/" ts) = true.
Proof.
  induction 1 as [|t ts Ht Hts IH]; [reflexivity|].
  destruct ts as [|t' ts]; [assumption|].
  change (String.concat "/" (t :: t' :: ts))
    with (t ++ "/" ++ String.concat "/" (t' :: ts)).
  apply wellformed_app; [assumption|]. now apply (wellformed_app "/").
Qed.

Lemma kept_byte_valid (c : ascii) :
  url.shouldEscape c url.encodePathSegment = false ->
  url.validEncoded (String c "") url.encodePath = true /\ Ascii.eqb c "/" = false.
Proof. each_byte c; vm_compute; intros; split; congruence. Qed.

Lemma hex_byte_valid (n : N) :
  url.validEncoded (String (url.hexdigit n) "") url.encodePath = true
  /\ Ascii.eqb (url.hexdigit n) "/" = false.
Proof.
  unfold url.hexdigit.
  destruct (String.get (N.to_nat n) url.upperhex) as [d|] eqn:G; [|now vm_compute].
  revert G. generalize (N.to_nat n). intros k.
  do 16 (destruct k as [|k]; [intros [= <-]; now vm_compute|]).
  discriminate.
Qed.

Lemma validEncoded_cons (c : ascii) (s : string) (m : url.encoding) :
  url.validEncoded (String c s) m
  = url.validEncoded (String c "") m && url.validEncoded s m.
Proof. exact (validEncoded_app (String c "") s m). Qed.

Lemma PathEscape_valid (v : string) :
  url.validEncoded (url.PathEscape v) url.encodePath = true.
Proof.
  unfold url.PathEscape. induction v as [|c v IH]; [reflexivity|].
  cbn [url.escape]. destruct (url.shouldEscape c url.encodePathSegment) eqn:E.
  - rewrite validEncoded_cons.
    rewrite (validEncoded_cons (url.hexdigit _)).
    rewrite (validEncoded_cons (url.hexdigit (N.land _ _))).
    rewrite (proj1 (hex_byte_valid _)), (proj1 (hex_byte_valid _)), IH.
    reflexivity.
  - rewrite validEncoded_cons, (proj1 (kept_byte_valid _ E)), IH. reflexivity.
Qed.

Lemma PathEscape_slash_free (v : string) :
  strings.Contains (url.PathEscape v) "/" = false.
Proof.
  unfold url.PathEscape. induction v as [|c v IH]; [reflexivity|].
  cbn [url.escape]. destruct (url.shouldEscape c url.encodePathSegment) eqn:E.
  - rewrite !Contains_slash_cons, IH.
    now rewrite (proj2 (hex_byte_valid _)), (proj2 (hex_byte_valid _)).
  - now rewrite Contains_slash_cons, IH, (proj2 (kept_byte_valid _ E)).
Qed.

Lemma PathEscape_wellformed (v : string) :
  wellformed (url.PathEscape v) = true.
Proof.
  unfold wellformed. unfold url.PathEscape at 1.
  now rewrite malformed_escape, PathEscape_valid.
Qed.

(** [PathEscape] is injective: its argument is recovered by decoding. *)
Lemma PathEscape_inj (v w : string) :
  url.PathEscape v = url.PathEscape w -> v = w.
Proof.
  intros H. apply (f_equal url.decode) in H.
  unfold url.PathEscape in H. now rewrite !decode_escape in H.
Qed.

(** ** [setPath] and [EscapedPath] *)

Lemma setPath_wellformed (u : url.URL) (p : string) :
  wellformed p = true ->
  url.setPath u p
  = ({| url.Path := url.decode p;
        url.RawPath := if String.eqb p (url.escape (url.decode p) url.encodePath)
                       then "" else p |}, None).
Proof.
  unfold wellformed, url.setPath, url.unescape. intros [H _]%andb_true_iff.
  destruct (url.malformed p); [discriminate|].
  now destruct (String.eqb p _).
Qed.

Lemma EscapedPath_setPath (u : url.URL) (p : string) :
  wellformed p = true -> p <> "%2A" ->
  url.EscapedPath (fst (url.setPath u p)) = p.
Proof.
  intros W N. rewrite (setPath_wellformed u p W). cbn [fst].
  unfold wellformed in W. apply andb_true_iff in W as [M V].
  destruct (url.malformed p) eqn:Mp; [discriminate|].
  unfold url.EscapedPath. cbn [url.Path url.RawPath].
  destruct (String.eqb p (url.escape (url.decode p) url.encodePath)) eqn:E.
  - cbn [String.eqb negb andb]. apply String.eqb_eq in E.
    destruct (String.eqb (url.decode p) "*") eqn:S; [|congruence].
    apply String.eqb_eq in S. rewrite S in E. now vm_compute in E.
  - destruct (String.eqb p "") eqn:P.
    + apply String.eqb_eq in P. subst p. discriminate.
    + cbn [negb andb]. rewrite V. unfold url.unescape. rewrite Mp.
      now rewrite String.eqb_refl.
Qed.

(** ** Paths made of tokens *)

Lemma token_inv (t : string) :
  token t = true ->
  real t = true /\ strings.Contains t "/" = false /\ wellformed t = true
  /\ t <> "" /\ String.eqb t ".." = false.
Proof.
  unfold token. intros [[R S]%andb_true_iff W]%andb_true_iff.
  apply negb_true_iff in S. repeat split; try assumption.
  - intros ->. discriminate.
  - unfold real in R. apply andb_true_iff in R as [_ R]. now apply negb_true_iff in R.
Qed.

Lemma tokens_elements (ts : list string) :
  Forall (fun t => token t = true) ts ->
  filter real (path.elements (String.concat "/" ts)) = ts
  /\ Forall (fun e => String.eqb e ".." = false) (path.elements (String.concat "/" ts))
  /\ (ts <> [] -> path.elements (String.concat "/" ts) = ts).
Proof.
  intros H. destruct ts as [|t ts]; [now repeat constructor|].
  assert (E : path.elements (String.concat "/" (t :: ts)) = t :: ts).
  { apply elements_concat; [|discriminate].
    eapply Forall_impl; [|exact H]. intros a Ha. now apply token_inv in Ha. }
  rewrite E. repeat split.
  - apply forallb_filter_id. apply forallb_forall. intros a Ha.
    rewrite Forall_forall in H. now apply token_inv, H.
  - eapply Forall_impl; [|exact H]. intros a Ha. now apply token_inv in Ha.
Qed.

Lemma tokens_no_leading_slash (ts : list string) :
  Forall (fun t => token t = true) ts ->
  strings.HasPrefix (String.concat "/" ts) "/" = false.
Proof.
  unfold strings.HasPrefix. destruct 1 as [|t ts Ht _]; [reflexivity|].
  apply token_inv in Ht as (_ & S & _ & N & _).
  destruct t as [|c t]; [congruence|].
  rewrite Contains_slash_cons in S. apply orb_false_iff in S as [S _].
  destruct ts; cbn [String.concat append]; now rewrite prefix_slash.
Qed.

Lemma tokens_wellformed (ts : list string) :
  Forall (fun t => token t = true) ts ->
  wellformed (String.concat "/" ts) = true.
Proof.
  intros H. apply wellformed_concat.
  eapply Forall_impl; [|exact H]. intros a Ha. now apply token_inv in Ha.
Qed.

Lemma path_of_segments (u : url.URL) (ts : list string) :
  path_of u ts ->
  filter (fun e => negb (String.eqb e "")) (path.elements (url.EscapedPath u)) = ts.
Proof.
  intros (T & E & _). rewrite E. destruct ts as [|t ts]; [reflexivity|].
  destruct (tokens_elements _ T) as (_ & _ & ->); [|discriminate].
  apply forallb_filter_id. apply forallb_forall. intros a Ha.
  rewrite Forall_forall in T. apply T, token_inv in Ha as (_ & _ & _ & N & _).
  apply negb_true_iff. now apply String.eqb_neq.
Qed.

(** The path [setPath] stores for a token list: the list itself, but
    for the lone token ["%2A"], which is stored unescaped. *)
Lemma path_of_setPath (u : url.URL) (ts : list string) :
  Forall (fun t => token t = true) ts ->
  path_of (fst (url.setPath u (String.concat "/" ts)))
          (if String.eqb (String.concat "/" ts) "%2A" then ["*"] else ts).
Proof.
  intros T. destruct (String.eqb (String.concat "/" ts) "%2A") eqn:E.
  - apply String.eqb_eq in E. rewrite E.
    repeat split; [repeat constructor|discriminate].
  - apply String.eqb_neq in E.
    pose proof (EscapedPath_setPath u _ (tokens_wellformed _ T) E) as P.
    repeat split; [assumption..|congruence].
Qed.

(** ** [JoinPath] on token paths *)

Lemma HasSuffix_slash (s : string) :
  strings.HasSuffix s "/" = true -> exists s', s = s' ++ "/".
Proof.
  unfold strings.HasSuffix. induction s as [|c s IH]; [discriminate|].
  destruct s as [|c' s].
  - cbn. intros H. destruct (Ascii.eqb_spec c "/") as [->|]; [|discriminate].
    now exists "".
  - intros H. destruct IH as [s' Hs'].
    + cbn [String.length Nat.sub skip Nat.leb andb] in H |- *.
      now rewrite Nat.sub_0_r in *.
    + exists (String c s'). cbn [append]. now rewrite <- Hs'.
Qed.

Lemma HasSuffix_slash_elements (s : string) :
  strings.HasSuffix s "/" = true ->
  exists es, path.elements s = (es ++ [""])%list.
Proof.
  intros [s' ->]%HasSuffix_slash. exists (path.elements s').
  exact (elements_app s' "").
Qed.

Lemma no_trailing_slash (s : string) (es : list string) (t : string) :
  path.elements s = (es ++ [t])%list -> t <> "" ->
  strings.HasSuffix s "/" = false.
Proof.
  intros E N. destruct (strings.HasSuffix s "/") eqn:H; [|reflexivity].
  apply HasSuffix_slash_elements in H as [es' H]. rewrite H in E.
  apply app_inj_tail in E as [_ <-]. congruence.
Qed.

Lemma URL_JoinPath_tokens (u : url.URL) (su : list string) (s : string) :
  path_of u su ->
  Forall (fun e => String.eqb e ".." = false) (path.elements s) ->
  strings.HasSuffix s "/" = false ->
  url.URL_JoinPath u [s]
  = fst (url.setPath u (String.concat "/" (su ++ filter real (path.elements s)))).
Proof.
  intros (T & E & _) Hs Hsuf. unfold url.URL_JoinPath.
  cbn [hd tl last]. rewrite Hsuf. cbn [andb]. rewrite E.
  rewrite (tokens_no_leading_slash _ T). cbn [negb append].
  rewrite Join_rooted, Clean_rooted_real.
  - rewrite elements_app, filter_app.
    now rewrite (proj1 (tokens_elements _ T)).
  - rewrite elements_app. apply Forall_app. split; [|assumption].
    apply (tokens_elements _ T).
Qed.

(** What [u.String()] contributes when it is joined to another path. *)
Lemma URL_String_tokens (o : url.URL) (so : list string) :
  path_of o so ->
  filter real (path.elements (url.URL_String o)) = so
  /\ Forall (fun e => String.eqb e ".." = false) (path.elements (url.URL_String o))
  /\ strings.HasSuffix (url.URL_String o) "/" = false.
Proof.
  intros (T & E & _). unfold url.URL_String. rewrite E.
  destruct (strings.Cut (String.concat "/" so) "/") as [[segment after] found] eqn:C.
  destruct so as [|t so]; [injection C as <- _ _; now repeat constructor|].
  destruct (tokens_elements _ T) as (F & D & El). specialize (El ltac:(discriminate)).
  assert (exists es last, (t :: so) = es ++ [last])%list as (es & l & Hl).
  { destruct (@exists_last _ (t :: so)) as (es & l & Hl); [discriminate|eauto]. }
  assert (Nl : l <> "").
  { assert (In l (t :: so)) by (rewrite Hl; apply in_or_app; right; now left).
    rewrite Forall_forall in T. now apply T, token_inv in H. }
  destruct (strings.Contains segment ":").
  - change ("./" ++ String.concat "/" (t :: so))
      with ("." ++ String "/" (String.concat "/" (t :: so))).
    rewrite elements_app. change (path.elements ".") with ["."].
    cbn [app]. repeat split.
    + exact F.
    + now constructor.
    + apply (no_trailing_slash _ ("." :: es) l); [|assumption].
      now rewrite elements_app, El, Hl.
  - cbn [append]. repeat split; [assumption..|].
    apply (no_trailing_slash _ es l); [|assumption]. now rewrite El.
Qed.

(** ** Rooted paths keep their leading slash *)

Lemma back_ge (out : string) (dotdot w : nat) :
  dotdot <= w -> dotdot <= path.back out dotdot w.
Proof.
  induction w as [|w IH]; intros H; cbn [path.back]; [assumption|].
  destruct (Nat.ltb_spec dotdot (S w)) as [L|L]; cbn [andb]; [|assumption].
  destruct (negb _); [apply IH; lia|assumption].
Qed.

Lemma clean_step_rooted (o e : string) :
  exists o', path.clean_step true (String "/" o, 1) e = (String "/" o', 1).
Proof.
  unfold path.clean_step.
  destruct (String.eqb e ""); [now exists o|].
  destruct (String.eqb e "."); [now exists o|].
  destruct (String.eqb e "..").
  - destruct (Nat.ltb_spec 1 (String.length (String "/" o))) as [L|L];
      [|now exists o].
    unfold path.backtrack.
    pose proof (back_ge (String "/" o) 1 (String.length (String "/" o) - 1)
                  ltac:(lia)) as B.
    destruct (path.back _ _ _) as [|k]; [lia|].
    now exists (String.substring 0 k o).
  - cbn [negb andb orb].
    destruct (negb (String.length (String "/" o) =? 1)%nat); cbn [append];
      eexists; reflexivity.
Qed.

Lemma clean_fold_rooted (es : list string) (o : string) :
  exists o', fold_left (path.clean_step true) es (String "/" o, 1)
             = (String "/" o', 1).
Proof.
  revert o. induction es as [|e es IH]; intros o; [now exists o|].
  cbn [fold_left]. destruct (clean_step_rooted o e) as [o' ->]. apply IH.
Qed.

Lemma Clean_rooted (x : string) :
  exists y, path.Clean (String "/" x) = String "/" y.
Proof.
  unfold path.Clean, strings.HasPrefix. rewrite prefix_slash.
  cbn [String.eqb Ascii.eqb Bool.eqb].
  destruct (clean_fold_rooted (path.elements (String "/" x)) "") as [y ->].
  now exists y.
Qed.

Lemma EscapedPath_rooted (u : url.URL) (a : string) :
  url.Path u = String "/" a ->
  url.RawPath u = "" \/ (exists b, url.RawPath u = String "/" b) ->
  exists c, url.EscapedPath u = String "/" c.
Proof.
  intros P R. unfold url.EscapedPath. rewrite P.
  change (if String.eqb (String "/" a) "*" then "*"
          else url.escape (String "/" a) url.encodePath)
    with (String "/" (url.escape a url.encodePath)).
  destruct R as [->|[b ->]]; [cbn; eauto|].
  destruct (_ && _); [|eauto].
  destruct (url.unescape _ _) as [p [e|]]; [eauto|].
  destruct (String.eqb p _); eauto.
Qed.

Lemma URL_String_rooted (u : url.URL) (c : string) :
  url.EscapedPath u = String "/" c -> url.URL_String u = String "/" c.
Proof.
  unfold url.URL_String. intros ->. cbn [strings.Cut].
  now rewrite prefix_slash.
Qed.

(** [url.JoinPath("/", s)] never fails and always starts with ['/']. *)
Lemma JoinPath_root (s : string) :
  exists rest, url.JoinPath "/" [s] = (String "/" rest, None).
Proof.
  unfold url.JoinPath.
  change (url.Parse "/") with ({| url.Path := "/"; url.RawPath := "" |}, @None error).
  cbv iota beta. set (root := {| url.Path := "/"; url.RawPath := "" |}).
  unfold url.URL_JoinPath. cbn [hd tl last].
  change (url.EscapedPath root) with "/".
  change (strings.HasPrefix "/" "/") with true. cbn [negb].
  rewrite (Join_rooted "" s). cbn [append].
  destruct (Clean_rooted (String "/" s)) as [y ->].
  set (p := if _ && _ then _ else _).
  assert (exists z, p = String "/" z) as [z ->]
    by (subst p; destruct (_ && _); cbn [append]; eauto).
  unfold url.setPath, url.unescape.
  destruct (url.malformed (String "/" z)); [now exists ""|].
  change (url.decode (String "/" z)) with (String "/" (url.decode z)).
  destruct (EscapedPath_rooted
              (fst (if String.eqb (String "/" z)
                         (url.escape (String "/" (url.decode z)) url.encodePath)
                    then ({| url.Path := String "/" (url.decode z); url.RawPath := "" |}, @None error)
                    else ({| url.Path := String "/" (url.decode z);
                             url.RawPath := String "/" z |}, None)))
              (url.decode z)) as [c Hc].
  - now destruct (String.eqb _ _).
  - destruct (String.eqb _ _); cbn; eauto.
  - exists c. now rewrite (URL_String_rooted _ _ Hc).
Qed.

(** ** The builder *)

Lemma path_of_zero : path_of url.zero [].
Proof. repeat split; [constructor|discriminate]. Qed.

Lemma PathEscape_token (v : string) :
  v <> "" -> v <> "." -> v <> ".." -> token (url.PathEscape v) = true.
Proof.
  intros N0 N1 N2. unfold token.
  rewrite PathEscape_slash_free, PathEscape_wellformed. cbn [negb andb].
  rewrite andb_true_r. unfold real.
  rewrite !andb_true_iff, !negb_true_iff, !String.eqb_neq.
  repeat split; intros H.
  - apply N0, PathEscape_inj. now rewrite H.
  - apply N1, PathEscape_inj. now rewrite H.
  - apply N2, PathEscape_inj. now rewrite H.
Qed.

Lemma newClientRoute_path (v : string) :
  path_of (model.url (model.newClientRoute v)) (new_segments v).
Proof.
  unfold new_segments.
  destruct (String.eqb_spec v "") as [->|N0];
    [repeat split; [constructor|discriminate]|].
  destruct (String.eqb_spec v ".") as [->|N1];
    [repeat split; [constructor|discriminate]|].
  destruct (String.eqb_spec v "..") as [->|N2];
    [repeat split; [constructor|discriminate]|].
  cbn [orb].
  destruct (String.eqb_spec v "*") as [->|N3];
    [repeat split; [repeat constructor|discriminate]|].
  pose proof (PathEscape_token v N0 N1 N2) as T.
  destruct (token_inv _ T) as (R & S & W & Ne & D).
  unfold model.newClientRoute. cbn [model.url].
  rewrite (URL_JoinPath_tokens _ [] _ path_of_zero).
  - rewrite (elements_noslash _ S). cbn [filter app]. rewrite R.
    pose proof (path_of_setPath url.zero [url.PathEscape v]
                  ltac:(now repeat constructor)) as P.
    cbn [String.concat] in P.
    destruct (String.eqb_spec (url.PathEscape v) "%2A") as [E|_]; [|exact P].
    exfalso. apply N3, PathEscape_inj. now rewrite E.
  - rewrite (elements_noslash _ S). now repeat constructor.
  - apply (no_trailing_slash _ [] (url.PathEscape v)); [|assumption].
    now rewrite (elements_noslash _ S).
Qed.

Lemma lone_escaped_star (su so : list string) :
  Forall (fun t => token t = true) (su ++ so) ->
  String.concat "/" (su ++ so) = "%2A" ->
  String.concat "/" su = "%2A" \/ String.concat "/" so = "%2A".
Proof.
  intros T E. destruct (tokens_elements _ T) as (_ & _ & El).
  destruct su as [|t su]; [now right|]. left.
  specialize (El ltac:(discriminate)). rewrite E in El.
  injection El as <- H. symmetry in H. apply app_eq_nil in H as [-> _].
  reflexivity.
Qed.

Lemma JoinRoute_paths (r o : model.clientRoute) (su so : list string) :
  path_of (model.url r) su -> path_of (model.url o) so ->
  model.err r = None -> model.err o = None ->
  model.JoinRoute r o
  = {| model.url := fst (url.setPath (model.url r) (String.concat "/" (su ++ so)));
       model.err := None |}
  /\ path_of (model.url (model.JoinRoute r o)) (su ++ so).
Proof.
  intros Pr Po Er Eo.
  destruct (URL_String_tokens _ _ Po) as (F & D & S).
  assert (J : model.JoinRoute r o
              = {| model.url := fst (url.setPath (model.url r)
                                       (String.concat "/" (su ++ so)));
                   model.err := None |}).
  { unfold model.JoinRoute. rewrite Er, Eo.
    now rewrite (URL_JoinPath_tokens _ _ _ Pr D S), F. }
  split; [exact J|]. rewrite J. cbn [model.url].
  assert (T : Forall (fun t => token t = true) (su ++ so))
    by (apply Forall_app; split; [apply Pr|apply Po]).
  pose proof (path_of_setPath (model.url r) _ T) as P.
  destruct (String.eqb_spec (String.concat "/" (su ++ so)) "%2A") as [E|_];
    [|exact P].
  exfalso. destruct (lone_escaped_star _ _ T E) as [H|H].
  - destruct Pr as (_ & Eu & Nu). congruence.
  - destruct Po as (_ & Eu & Nu). congruence.
Qed.

(** A builder whose path is a token list resolves to ['/'] followed by
    that path. *)
Lemma String_path_of (r : model.clientRoute) (ts : list string) :
  path_of (model.url r) ts -> model.err r = None ->
  model.String r = (String "/" (String.concat "/" ts), None).
Proof.
  intros P E. destruct (URL_String_tokens _ _ P) as (F & D & S).
  unfold model.String. rewrite E. unfold url.JoinPath.
  change (url.Parse "/") with ({| url.Path := "/"; url.RawPath := "" |}, @None error).
  cbv iota beta. set (root := {| url.Path := "/"; url.RawPath := "" |}).
  unfold url.URL_JoinPath. cbn [hd tl last]. rewrite S. cbn [andb].
  change (url.EscapedPath root) with "/".
  change (strings.HasPrefix "/" "/") with true. cbn [negb].
  rewrite (Join_rooted "" _). cbn [append].
  rewrite Clean_rooted_real.
  - change (path.elements (String "/" (url.URL_String (model.url r))))
      with ("" :: path.elements (url.URL_String (model.url r))).
    cbn [filter]. change (real "") with false. cbv iota. rewrite F.
    assert (W : wellformed (String "/" (String.concat "/" ts)) = true)
      by (apply (wellformed_app "/"); [reflexivity|apply tokens_wellformed, P]).
    f_equal. apply URL_String_rooted.
    apply EscapedPath_setPath; [assumption|discriminate].
  - constructor; [reflexivity|assumption].
Qed.

Lemma clean_intro (r : model.clientRoute) (ts : list string) :
  path_of (model.url r) ts -> clean r.
Proof. intros H. unfold clean, segments. now rewrite (path_of_segments _ _ H). Qed.

Lemma JoinRoute_failed (r o : model.clientRoute) (e : error) :
  model.err r = Some e -> model.JoinRoute r o = r.
Proof. intros E. unfold model.JoinRoute. now rewrite E. Qed.

Lemma JoinRoute_other_failed (r o : model.clientRoute) (e : error) :
  model.err r = None -> model.err o = Some e ->
  model.JoinRoute r o = set_err r e.
Proof. intros E E'. unfold model.JoinRoute. now rewrite E, E'. Qed.

Lemma clean_JoinRoute (r o : model.clientRoute) :
  clean r -> clean o -> clean (model.JoinRoute r o).
Proof.
  intros Hr Ho. destruct (model.err r) as [e|] eqn:Er.
  - unfold model.JoinRoute. now rewrite Er.
  - destruct (model.err o) as [e|] eqn:Eo.
    + unfold model.JoinRoute. rewrite Er, Eo. exact Hr.
    + eapply clean_intro, (JoinRoute_paths _ _ _ _ Hr Ho Er Eo).
Qed.

Lemma clean_JoinSegment (r : model.clientRoute) (v : string) :
  clean r -> clean (model.JoinSegment r v).
Proof.
  intros Hr. unfold model.JoinSegment.
  destruct (strings.Contains v "/"); [exact Hr|].
  apply clean_JoinRoute; [assumption|].
  eapply clean_intro, newClientRoute_path.
Qed.

Lemma clean_JoinSegments (values : list string) (r : model.clientRoute) :
  clean r -> clean (model.JoinSegments r values).
Proof.
  unfold model.JoinSegments. revert r.
  induction values as [|v vs IH]; intros r Hr; [assumption|].
  cbn [fold_left]. now apply IH, clean_JoinSegment.
Qed.

Section Builders.

Variable V : model.Validators.

Lemma built_clean (r : model.clientRoute) : built V r -> clean r.
Proof.
  induction 1 as [ | e | v | r o _ IHr _ IHo | r v _ IH | r vs _ IH
                 | r v _ IH | r v _ IH | r v _ IH | r v _ IH | r v _ IH
                 | r v _ IH ].
  - exact (clean_intro model.empty _ path_of_zero).
  - exact (clean_intro (set_err model.empty e) _ path_of_zero).
  - exact (clean_intro _ _ (newClientRoute_path v)).
  - now apply clean_JoinRoute.
  - now apply clean_JoinSegment.
  - now apply clean_JoinSegments.
  - unfold model.JoinId. destruct (negb _); [exact IH|now apply clean_JoinSegment].
  - unfold model.JoinUsername.
    destruct (negb _); [exact IH|now apply clean_JoinSegment].
  - unfold model.JoinTeamname.
    destruct (negb _); [exact IH|now apply clean_JoinSegment].
  - unfold model.JoinChannelname.
    destruct (negb _); [exact IH|now apply clean_JoinSegment].
  - unfold model.JoinEmail.
    destruct (negb _); [exact IH|now apply clean_JoinSegment].
  - unfold model.JoinEmojiname.
    destruct (model.IsValidEmojiName V v); [exact IH|now apply clean_JoinSegment].
Qed.

(** C2.  [JoinRoute] merges two builders: a failed receiver is returned
    as it is; otherwise a failed argument passes its error on and the
    path stays; otherwise there is no error and the path is the segments
    of the receiver followed by those of the argument. *)
Theorem JoinRoute_merge (self other : model.clientRoute) :
  (forall e, model.err self = Some e -> model.JoinRoute self other = self)
  /\ (forall e, model.err self = None -> model.err other = Some e ->
        model.JoinRoute self other = set_err self e)
  /\ (built V self -> built V other ->
      model.err self = None -> model.err other = None ->
      model.err (model.JoinRoute self other) = None
      /\ segments (model.url (model.JoinRoute self other))
         = (segments (model.url self) ++ segments (model.url other))%list
      /\ url.EscapedPath (model.url (model.JoinRoute self other))
         = String.concat "/" (segments (model.url self)
                              ++ segments (model.url other))).
Proof.
  split; [|split].
  - intros e. apply JoinRoute_failed.
  - intros e. apply JoinRoute_other_failed.
  - intros Bs Bo Es Eo.
    destruct (JoinRoute_paths _ _ _ _ (built_clean _ Bs) (built_clean _ Bo) Es Eo)
      as [J P].
    split; [now rewrite J|]. split; [exact (path_of_segments _ _ P)|apply P].
Qed.

(** C6.  [JoinRoute] is associative up to resolution: both groupings
    resolve to the same result, the same error or the same string. *)
Theorem JoinRoute_assoc (a b c : model.clientRoute) :
  built V a -> built V b -> built V c ->
  model.String (model.JoinRoute (model.JoinRoute a b) c)
  = model.String (model.JoinRoute a (model.JoinRoute b c)).
Proof.
  intros Ha%built_clean Hb%built_clean Hc%built_clean.
  destruct (model.err a) as [ea|] eqn:Ea.
  { now rewrite (JoinRoute_failed a b ea Ea), (JoinRoute_failed a c ea Ea),
      (JoinRoute_failed a _ ea Ea). }
  destruct (model.err b) as [eb|] eqn:Eb.
  { rewrite (JoinRoute_failed b c eb Eb), (JoinRoute_other_failed a b eb Ea Eb).
    now rewrite (JoinRoute_failed (set_err a eb) c eb). }
  destruct (JoinRoute_paths _ _ _ _ Ha Hb Ea Eb) as [Jab Pab].
  assert (Eab : model.err (model.JoinRoute a b) = None) by now rewrite Jab.
  destruct (model.err c) as [ec|] eqn:Ec.
  { rewrite (JoinRoute_other_failed _ c ec Eab Ec).
    rewrite (JoinRoute_other_failed b c ec Eb Ec).
    now rewrite (JoinRoute_other_failed a (set_err b ec) ec Ea). }
  destruct (JoinRoute_paths _ _ _ _ Hb Hc Eb Ec) as [Jbc Pbc].
  assert (Ebc : model.err (model.JoinRoute b c) = None) by now rewrite Jbc.
  destruct (JoinRoute_paths _ _ _ _ Pab Hc Eab Ec) as [J1 P1].
  destruct (JoinRoute_paths _ _ _ _ Ha Pbc Ea Ebc) as [J2 P2].
  rewrite (String_path_of _ _ P1), (String_path_of _ _ P2).
  - now rewrite app_assoc.
  - now rewrite J2.
  - now rewrite J1.
Qed.

(** C8.  The typed joins on an error-free builder: a rejected value
    leaves the path and stores the error of its kind, quoting the value
    (the emoji error wraps the validator's); an accepted value is joined
    by [JoinSegment], whose slash check still applies. *)
Theorem typed_join_contract (r : model.clientRoute) (v : string) :
  model.err r = None ->
  (model.IsValidId V v = false ->
   model.JoinId V r v = set_err r (Errorf "%q is not a valid ID" [Quoted v]))
  /\ (model.IsValidUsername V v = false ->
      model.JoinUsername V r v
      = set_err r (Errorf "%q is not a valid username" [Quoted v]))
  /\ (model.IsValidTeamName V v = false ->
      model.JoinTeamname V r v
      = set_err r (Errorf "%q is not a valid team name" [Quoted v]))
  /\ (model.IsValidChannelIdentifier V v = false ->
      model.JoinChannelname V r v
      = set_err r (Errorf "%q is not a valid channel name" [Quoted v]))
  /\ (model.IsValidEmail V v = false ->
      model.JoinEmail V r v
      = set_err r (Errorf "%q is not a valid email" [Quoted v]))
  /\ (forall detail, model.IsValidEmojiName V v = Some detail ->
      model.JoinEmojiname V r v
      = set_err r (Errorf "%q is not a valid emoji name: %w"
                          [Quoted v; Wrapped detail]))
  /\ (model.IsValidId V v = true -> model.JoinId V r v = model.JoinSegment r v)
  /\ (model.IsValidUsername V v = true ->
      model.JoinUsername V r v = model.JoinSegment r v)
  /\ (model.IsValidTeamName V v = true ->
      model.JoinTeamname V r v = model.JoinSegment r v)
  /\ (model.IsValidChannelIdentifier V v = true ->
      model.JoinChannelname V r v = model.JoinSegment r v)
  /\ (model.IsValidEmail V v = true ->
      model.JoinEmail V r v = model.JoinSegment r v)
  /\ (model.IsValidEmojiName V v = None ->
      model.JoinEmojiname V r v = model.JoinSegment r v)
  /\ (strings.Contains v "/" = true ->
      model.JoinSegment r v = set_err r (slashes v)
      /\ model.String (model.JoinSegment r v) = ("", Some (slashes v))).
Proof.
  intros E.
  unfold model.JoinId, model.JoinUsername, model.JoinTeamname,
    model.JoinChannelname, model.JoinEmail, model.JoinEmojiname.
  repeat match goal with |- _ /\ _ => split end;
    try (intros ->; reflexivity).
  - intros detail ->. reflexivity.
  - intros S. unfold model.JoinSegment. rewrite S. split; reflexivity.
Qed.

End Builders.

(** ** Resolution *)

(** C10.  Neither finalizer fails on its own: the error each returns is
    the stored error, so the error branch after [url.JoinPath] is never
    taken. *)
Theorem finalizers_report_stored_error (r : model.clientRoute) :
  snd (model.String r) = model.err r /\ snd (model.URL r) = model.err r.
Proof.
  unfold model.String, model.URL.
  destruct (model.err r) as [e|]; [now split|].
  destruct (JoinPath_root (url.URL_String (model.url r))) as [rest ->].
  now split.
Qed.

(** C9.  [String] and [URL] agree: they return the same error, and on
    success the string of [String] is the [Path] of the URL of [URL]. *)
Theorem String_URL_agree (r : model.clientRoute) :
  snd (model.URL r) = snd (model.String r)
  /\ (snd (model.String r) = None ->
      exists u, fst (model.URL r) = Some u
                /\ url.Path u = fst (model.String r))
  /\ (snd (model.String r) <> None -> fst (model.URL r) = None).
Proof.
  unfold model.String, model.URL.
  destruct (model.err r) as [e|].
  - split; [reflexivity|]. split; [discriminate|reflexivity].
  - destruct (JoinPath_root (url.URL_String (model.url r))) as [rest ->].
    split; [reflexivity|]. split; [|now intros []].
    intros _. eexists. split; reflexivity.
Qed.

(** C5.  A resolved path starts with a slash: [String] fails or returns
    a string that begins with ['/'], the path of the URL of [URL] begins
    with ['/'], and the empty builder resolves to ["/"]. *)
Theorem leading_slash (r : model.clientRoute) :
  (snd (model.String r) <> None
   \/ exists rest, fst (model.String r) = String "/" rest)
  /\ (forall u, fst (model.URL r) = Some u ->
      exists rest, url.Path u = String "/" rest)
  /\ model.String model.empty = ("/", None)
  /\ fst (model.URL model.empty) = Some {| url.Path := "/"; url.RawPath := "" |}.
Proof.
  unfold model.String at 1 2, model.URL at 1.
  destruct (model.err r) as [e|].
  - split; [now left|]. split; [discriminate|]. split; reflexivity.
  - destruct (JoinPath_root (url.URL_String (model.url r))) as [rest ->].
    split; [right; now exists rest|]. split; [|split; reflexivity].
    intros u [= <-]. now exists rest.
Qed.

Lemma String_URL_agree_witness :
  exists u, fst (model.URL (model.newClientRoute "hello world")) = Some u
            /\ url.Path u = fst (model.String (model.newClientRoute "hello world")).
Proof.
  apply (String_URL_agree (model.newClientRoute "hello world")). reflexivity.
Defined.

Lemma leading_slash_witness :
  exists rest,
    url.Path {| url.Path := "/api/a%3Bb"; url.RawPath := "api/a%3Bb" |}
    = String "/" rest.
Proof.
  apply (leading_slash (model.JoinSegment (model.newClientRoute "api") "a;b")).
  reflexivity.
Defined.

(** ** Segments *)

(** C4.  A segment with a slash is rejected: on an error-free builder
    [JoinSegment] keeps the path and stores the slash error that quotes
    the segment, and the empty builder then resolves to that error. *)
Theorem JoinSegment_rejects_slash (r : model.clientRoute) (v : string) :
  strings.Contains v "/" = true -> model.err r = None ->
  model.JoinSegment r v = set_err r (slashes v)
  /\ model.url (model.JoinSegment r v) = model.url r
  /\ model.String (model.JoinSegment model.empty v) = ("", Some (slashes v)).
Proof.
  intros S _. unfold model.JoinSegment. rewrite S. now repeat split.
Qed.

Lemma JoinSegment_rejects_slash_witness :
  model.JoinSegment (model.newClientRoute "api") "v4/users"
  = set_err (model.newClientRoute "api") (slashes "v4/users")
  /\ model.url (model.JoinSegment (model.newClientRoute "api") "v4/users")
     = model.url (model.newClientRoute "api")
  /\ model.String (model.JoinSegment model.empty "v4/users")
     = ("", Some (slashes "v4/users")).
Proof.
  apply (JoinSegment_rejects_slash (model.newClientRoute "api") "v4/users");
    reflexivity.
Defined.

(** A segment whose own check fails stores its error whatever the
    builder held before; any other segment leaves a failed builder as it
    is. *)
Lemma JoinSegment_slash_any (r : model.clientRoute) (v : string) :
  strings.Contains v "/" = true -> model.JoinSegment r v = set_err r (slashes v).
Proof. intros S. unfold model.JoinSegment. now rewrite S. Qed.

Lemma JoinSegment_failed (r : model.clientRoute) (v : string) (e : error) :
  strings.Contains v "/" = false -> model.err r = Some e ->
  model.JoinSegment r v = r.
Proof.
  intros S E. unfold model.JoinSegment. rewrite S. now apply JoinRoute_failed with e.
Qed.

Lemma JoinSegment_keeps_failure (r : model.clientRoute) (v : string) :
  model.err r <> None ->
  model.url (model.JoinSegment r v) = model.url r
  /\ model.err (model.JoinSegment r v) <> None.
Proof.
  intros E. destruct (model.err r) as [e|] eqn:Er; [|congruence].
  destruct (strings.Contains v "/") eqn:S.
  - rewrite (JoinSegment_slash_any _ _ S). now split.
  - rewrite (JoinSegment_failed _ _ e S Er). split; congruence.
Qed.

Lemma JoinSegments_keeps_failure (vs : list string) (r : model.clientRoute) :
  model.err r <> None ->
  model.url (model.JoinSegments r vs) = model.url r
  /\ model.err (model.JoinSegments r vs) <> None.
Proof.
  unfold model.JoinSegments. revert r.
  induction vs as [|v vs IH]; intros r E; [now split|].
  cbn [fold_left]. destruct (JoinSegment_keeps_failure r v E) as [U E'].
  destruct (IH _ E') as [U' E'']. split; congruence.
Qed.

(** C7, at the input where the code leaves the specification: the
    second bad segment replaces the error of the first. *)
Theorem JoinSegments_later_error_wins :
  model.String (model.JoinSegments (model.newClientRoute "api") ["a/b"; "c/d"])
  = ("", Some (slashes "c/d"))
  /\ model.String (JoinSegments_first_error (model.newClientRoute "api") ["a/b"; "c/d"])
     = ("", Some (slashes "a/b"))
  /\ model.String (model.JoinSegment (model.newClientRoute "api") "a/b")
     = ("", Some (slashes "a/b")).
Proof. repeat split. Qed.

(** The loop and the specification's fold agree when no segment has a
    slash. *)
Lemma JoinSegments_nil (r : model.clientRoute) : model.JoinSegments r [] = r.
Proof. reflexivity. Qed.

Lemma JoinSegments_cons (r : model.clientRoute) (v : string) (vs : list string) :
  model.JoinSegments r (v :: vs) = model.JoinSegments (model.JoinSegment r v) vs.
Proof. reflexivity. Qed.

Lemma JoinSegments_failed (vs : list string) (r : model.clientRoute) (e : error) :
  Forall (fun v => strings.Contains v "/" = false) vs ->
  model.err r = Some e -> model.JoinSegments r vs = r.
Proof.
  induction 1 as [|v vs Hv _ IH]; intros E; [reflexivity|].
  now rewrite JoinSegments_cons, (JoinSegment_failed _ _ e Hv E), IH.
Qed.

Lemma JoinSegments_agree (vs : list string) (r : model.clientRoute) :
  Forall (fun v => strings.Contains v "/" = false) vs ->
  model.JoinSegments r vs = JoinSegments_first_error r vs.
Proof.
  intros H. revert r. induction H as [|v vs Hv Hvs IH]; intros r; [reflexivity|].
  rewrite JoinSegments_cons. cbn [JoinSegments_first_error].
  destruct (model.err (model.JoinSegment r v)) as [e|] eqn:E; [|apply IH].
  now apply JoinSegments_failed with e.
Qed.

(** ** Escaping *)

Lemma newClientRoute_String (v : string) :
  v <> "." -> v <> ".." -> v <> "*" ->
  model.String (model.newClientRoute v) = (String "/" (url.PathEscape v), None).
Proof.
  intros N1 N2 N3.
  rewrite (String_path_of _ _ (newClientRoute_path v)) by reflexivity.
  unfold new_segments.
  destruct (String.eqb_spec v "") as [->|_]; [reflexivity|].
  destruct (String.eqb_spec v ".") as [|_]; [contradiction|].
  destruct (String.eqb_spec v "..") as [|_]; [contradiction|].
  destruct (String.eqb_spec v "*") as [|_]; [contradiction|].
  reflexivity.
Qed.

(** The three segments that do not resolve to their escaped form. *)
Lemma newClientRoute_String_special :
  model.String (model.newClientRoute ".") = ("/", None)
  /\ model.String (model.newClientRoute "..") = ("/", None)
  /\ model.String (model.newClientRoute "*") = ("/*", None)
  /\ url.PathEscape "*" = "%2A".
Proof. repeat split. Qed.

(** C3, as amended.  A segment without a slash, other than ["."],
    [".."] and ["*"], resolves to ['/'] followed by its escaped form,
    and unescaping the escaped form gives the segment back. *)
Theorem newClientRoute_escaping (v : string) :
  strings.Contains v "/" = false -> v <> "." -> v <> ".." -> v <> "*" ->
  model.String (model.newClientRoute v) = (String "/" (url.PathEscape v), None)
  /\ url.PathUnescape (url.PathEscape v) = (v, None).
Proof.
  intros _ N1 N2 N3. split; [now apply newClientRoute_String|].
  apply unescape_escape.
Qed.

Lemma newClientRoute_escaping_witness :
  model.String (model.newClientRoute "hello world") = ("/hello%20world", None)
  /\ url.PathUnescape "hello%20world" = ("hello world", None).
Proof.
  apply (newClientRoute_escaping "hello world"); [reflexivity|discriminate..].
Defined.

(** C3 as stated fails: the segment ["."] has no slash and resolves to
    ["/"], not to ["/."]. *)
Lemma newClientRoute_escaping_fails :
  ~ (forall v, strings.Contains v "/" = false ->
       model.String (model.newClientRoute v)
       = (String "/" (url.PathEscape v), None)
       /\ url.PathUnescape (url.PathEscape v) = (v, None)).
Proof. intros H. destruct (H "." eq_refl) as [H' _]. discriminate H'. Qed.

(** ** Chains of joins *)

Section Chains.

Variable V : model.Validators.

(** After a failure no join changes the path, and none clears the
    error. *)
Lemma join_keeps_failure (r : model.clientRoute) (j : Join) :
  model.err r <> None ->
  model.url (join V r j) = model.url r /\ model.err (join V r j) <> None.
Proof.
  intros E. pose proof (JoinSegment_keeps_failure r) as S.
  destruct j as [o|v|vs|v|v|v|v|v|v]; cbn [join].
  - destruct (model.err r) as [e|] eqn:Er; [|congruence].
    rewrite (JoinRoute_failed r o e Er). split; congruence.
  - now apply S.
  - now apply JoinSegments_keeps_failure.
  - unfold model.JoinId. destruct (negb _); [now split|now apply S].
  - unfold model.JoinUsername. destruct (negb _); [now split|now apply S].
  - unfold model.JoinTeamname. destruct (negb _); [now split|now apply S].
  - unfold model.JoinChannelname. destruct (negb _); [now split|now apply S].
  - unfold model.JoinEmail. destruct (negb _); [now split|now apply S].
  - unfold model.JoinEmojiname.
    destruct (model.IsValidEmojiName V v); [now split|now apply S].
Qed.

Lemma chain_keeps_failure (js : list Join) (r : model.clientRoute) :
  model.err r <> None ->
  model.url (chain V r js) = model.url r /\ model.err (chain V r js) <> None.
Proof.
  unfold chain. revert r. induction js as [|j js IH]; intros r E; [now split|].
  cbn [fold_left]. destruct (join_keeps_failure r j E) as [U E'].
  destruct (IH _ E') as [U' E'']. split; congruence.
Qed.

(** C1, at the input where the code leaves the specification: the
    first join fails, the second fails too, and both finalizers report
    the error of the second; the path is the one the first join left. *)
Theorem first_error_overwritten :
  let start := model.newClientRoute "api" in
  let failed := join V start (BySegment "a/b") in
  let full := chain V start [BySegment "a/b"; BySegment "c/d"] in
  model.String failed = ("", Some (slashes "a/b"))
  /\ model.String full = ("", Some (slashes "c/d"))
  /\ model.URL full = (None, Some (slashes "c/d"))
  /\ model.url full = model.url start.
Proof. repeat split. Qed.

End Chains.

(** ** Instances *)

Lemma JoinRoute_merge_witness :
  let self := model.newClientRoute "api" in
  let other := model.JoinSegment (model.newClientRoute "v4") "a:b" in
  model.err (model.JoinRoute self other) = None
  /\ segments (model.url (model.JoinRoute self other))
     = (segments (model.url self) ++ segments (model.url other))%list
  /\ url.EscapedPath (model.url (model.JoinRoute self other))
     = String.concat "/" (segments (model.url self) ++ segments (model.url other)).
Proof.
  cbv zeta.
  apply (JoinRoute_merge sample
           (model.newClientRoute "api")
           (model.JoinSegment (model.newClientRoute "v4") "a:b")).
  - constructor.
  - do 2 constructor.
  - reflexivity.
  - reflexivity.
Defined.

Lemma JoinRoute_assoc_witness :
  let a := model.newClientRoute "api" in
  let b := model.JoinId sample (model.newClientRoute "users") "short" in
  let c := model.JoinSegment model.empty "a/b" in
  model.String (model.JoinRoute (model.JoinRoute a b) c)
  = model.String (model.JoinRoute a (model.JoinRoute b c)).
Proof.
  cbv zeta.
  apply (JoinRoute_assoc sample).
  - constructor.
  - do 2 constructor.
  - do 2 constructor.
Defined.

Lemma typed_join_contract_witness :
  model.JoinId sample (model.newClientRoute "api") "short"
  = set_err (model.newClientRoute "api") (Errorf "%q is not a valid ID" [Quoted "short"]).
Proof.
  apply (typed_join_contract sample
           (model.newClientRoute "api") "short"); reflexivity.
Defined.

(** * Further properties of the builder *)

(** ** Chains after a failure *)

Lemma slashless_fold (vs : list string) (acc : option error) :
  fold_left (fun acc v => if strings.Contains v "/" then Some (slashes v) else acc)
            vs acc = None ->
  acc = None /\ Forall (fun v => strings.Contains v "/" = false) vs.
Proof.
  revert acc. induction vs as [|v vs IH]; intros acc H; [now split|].
  cbn [fold_left] in H. apply IH in H as [H F].
  destruct (strings.Contains v "/") eqn:S; [discriminate|]. now split; [|constructor].
Qed.

Lemma JoinSegments_last_slash (vs : list string) (r : model.clientRoute)
      (acc : option error) (e : error) :
  (forall e', acc = Some e' -> model.err r = Some e') ->
  fold_left (fun acc v => if strings.Contains v "/" then Some (slashes v) else acc)
            vs acc = Some e ->
  model.err (model.JoinSegments r vs) = Some e.
Proof.
  revert r acc. induction vs as [|v vs IH]; intros r acc A H.
  - now apply A.
  - rewrite JoinSegments_cons. cbn [fold_left] in H.
    refine (IH _ _ _ H). intros e'.
    destruct (strings.Contains v "/") eqn:S.
    + intros [= <-]. now rewrite (JoinSegment_slash_any _ _ S).
    + intros E. now rewrite (JoinSegment_failed _ _ e' S (A _ E)), (A _ E).
Qed.

Section Failures.

Variable V : model.Validators.

Lemma own_error_none (r : model.clientRoute) (j : Join) (e : error) :
  own_error V j = None -> model.err r = Some e -> join V r j = r.
Proof.
  intros O E. pose proof (fun v S => JoinSegment_failed r v e S E) as K.
  destruct j as [o|v|vs|v|v|v|v|v|v]; cbn [join own_error] in *.
  - now apply JoinRoute_failed with e.
  - unfold slash_error in O. destruct (strings.Contains v "/") eqn:S;
      [discriminate|now apply K].
  - apply slashless_fold in O as [_ F]. now apply JoinSegments_failed with e.
  - unfold model.JoinId. destruct (negb _); [discriminate|].
    unfold slash_error in O. destruct (strings.Contains v "/") eqn:S;
      [discriminate|now apply K].
  - unfold model.JoinUsername. destruct (negb _); [discriminate|].
    unfold slash_error in O. destruct (strings.Contains v "/") eqn:S;
      [discriminate|now apply K].
  - unfold model.JoinTeamname. destruct (negb _); [discriminate|].
    unfold slash_error in O. destruct (strings.Contains v "/") eqn:S;
      [discriminate|now apply K].
  - unfold model.JoinChannelname. destruct (negb _); [discriminate|].
    unfold slash_error in O. destruct (strings.Contains v "/") eqn:S;
      [discriminate|now apply K].
  - unfold model.JoinEmail. destruct (negb _); [discriminate|].
    unfold slash_error in O. destruct (strings.Contains v "/") eqn:S;
      [discriminate|now apply K].
  - unfold model.JoinEmojiname. destruct (model.IsValidEmojiName V v); [discriminate|].
    unfold slash_error in O. destruct (strings.Contains v "/") eqn:S;
      [discriminate|now apply K].
Qed.

Lemma own_error_some (r : model.clientRoute) (j : Join) (e : error) :
  own_error V j = Some e -> model.err (join V r j) = Some e.
Proof.
  intros O.
  assert (K : forall v, slash_error v = Some e ->
                        model.err (model.JoinSegment r v) = Some e).
  { intros v. unfold slash_error. destruct (strings.Contains v "/") eqn:S;
      [|discriminate]. intros [= <-]. now rewrite (JoinSegment_slash_any _ _ S). }
  destruct j as [o|v|vs|v|v|v|v|v|v]; cbn [join own_error] in *.
  - discriminate.
  - now apply K.
  - apply (JoinSegments_last_slash vs r None e); [discriminate|assumption].
  - unfold model.JoinId. destruct (negb _); [now injection O as <-|now apply K].
  - unfold model.JoinUsername. destruct (negb _); [now injection O as <-|now apply K].
  - unfold model.JoinTeamname. destruct (negb _); [now injection O as <-|now apply K].
  - unfold model.JoinChannelname.
    destruct (negb _); [now injection O as <-|now apply K].
  - unfold model.JoinEmail. destruct (negb _); [now injection O as <-|now apply K].
  - unfold model.JoinEmojiname.
    destruct (model.IsValidEmojiName V v); [now injection O as <-|now apply K].
Qed.

(** X1.  A failed builder stays failed and keeps its path: whatever
    joins follow, the path is the one it had and an error is stored. *)
Theorem failed_chain_frozen (r : model.clientRoute) (js : list Join) :
  model.err r <> None ->
  model.url (chain V r js) = model.url r
  /\ model.err (chain V r js) <> None
  /\ fst (model.String (chain V r js)) = ""
  /\ fst (model.URL (chain V r js)) = None.
Proof.
  intros E. destruct (chain_keeps_failure V js r E) as [U E'].
  split; [assumption|]. split; [assumption|].
  unfold model.String, model.URL.
  destruct (model.err (chain V r js)); [now split|congruence].
Qed.

(** X2.  The stored error is sticky through joins that pass their own
    check: on a failed builder a chain of such joins returns the
    builder itself, so both finalizers still report its error. *)
Theorem failed_chain_sticky (r : model.clientRoute) (js : list Join) (e : error) :
  model.err r = Some e ->
  Forall (fun j => own_error V j = None) js ->
  chain V r js = r
  /\ model.String (chain V r js) = ("", Some e)
  /\ model.URL (chain V r js) = (None, Some e).
Proof.
  intros E F.
  assert (C : chain V r js = r).
  { unfold chain. induction F as [|j js Hj _ IH]; [reflexivity|].
    cbn [fold_left]. now rewrite (own_error_none r j e Hj E). }
  rewrite C. unfold model.String, model.URL. now rewrite E.
Qed.

(** X3.  The error a chain reports is the one of the last join that
    fails its own check: when only joins that pass their check follow
    it, both finalizers return its error, whatever the builder held
    before. *)
Theorem chain_last_failure_wins
        (r : model.clientRoute) (before after : list Join) (j : Join) (e : error) :
  own_error V j = Some e ->
  Forall (fun j' => own_error V j' = None) after ->
  model.String (chain V r (before ++ j :: after)) = ("", Some e)
  /\ model.URL (chain V r (before ++ j :: after)) = (None, Some e).
Proof.
  intros O F. unfold chain. rewrite fold_left_app. cbn [fold_left].
  set (r' := join V (fold_left (join V) before r) j).
  assert (E : model.err r' = Some e) by apply (own_error_some _ _ _ O).
  assert (C : fold_left (join V) after r' = r').
  { induction F as [|k ks Hk _ IH]; [reflexivity|].
    cbn [fold_left]. now rewrite (own_error_none r' k e Hk E). }
  rewrite C. unfold model.String, model.URL. now rewrite E.
Qed.

End Failures.

Lemma failed_chain_frozen_witness :
  let r := model.JoinSegment (model.newClientRoute "api") "a/b" in
  let js := [BySegment "v4"; ById "short"; ByRoute (model.newClientRoute "x")] in
  model.url (chain sample r js) = model.url r
  /\ model.err (chain sample r js) <> None
  /\ fst (model.String (chain sample r js)) = ""
  /\ fst (model.URL (chain sample r js)) = None.
Proof.
  cbv zeta.
  apply (failed_chain_frozen sample
           (model.JoinSegment (model.newClientRoute "api") "a/b")).
  discriminate.
Defined.

Lemma failed_chain_sticky_witness :
  let r := model.JoinId sample (model.newClientRoute "api") "invalid-id" in
  let js := [BySegment "test"; ByUsername "john.doe";
             ByRoute (model.JoinSegment model.empty "x/y")] in
  chain sample r js = r
  /\ model.String (chain sample r js)
     = ("", Some (Errorf "%q is not a valid ID" [Quoted "invalid-id"]))
  /\ model.URL (chain sample r js)
     = (None, Some (Errorf "%q is not a valid ID" [Quoted "invalid-id"])).
Proof.
  cbv zeta.
  apply (failed_chain_sticky sample
           (model.JoinId sample (model.newClientRoute "api") "invalid-id")).
  - reflexivity.
  - repeat constructor.
Defined.

Lemma chain_last_failure_wins_witness :
  let js := ([ById "invalid-id"; BySegment "v4"] ++
             BySegments ["a"; "b/c"; "d"] :: [BySegment "users"; ByEmail "a@b"])%list in
  model.String (chain sample (model.newClientRoute "api") js)
  = ("", Some (slashes "b/c"))
  /\ model.URL (chain sample (model.newClientRoute "api") js)
     = (None, Some (slashes "b/c")).
Proof.
  cbv zeta.
  apply (chain_last_failure_wins sample (model.newClientRoute "api")).
  - reflexivity.
  - repeat constructor.
Defined.

(** ** What a builder resolves to *)

Lemma URL_of_String (r : model.clientRoute) (s : string) :
  model.err r = None -> model.String r = (s, None) ->
  model.URL r
  = (Some {| url.Path := s; url.RawPath := url.RawPath (model.url r) |}, None).
Proof.
  unfold model.String, model.URL. intros ->.
  destruct (url.JoinPath "/" [url.URL_String (model.url r)]) as [p [e|]];
    [discriminate|]. now intros [= ->].
Qed.

Lemma JoinSegment_paths (r : model.clientRoute) (v : string) (su : list string) :
  path_of (model.url r) su -> model.err r = None ->
  strings.Contains v "/" = false ->
  model.err (model.JoinSegment r v) = None
  /\ path_of (model.url (model.JoinSegment r v)) (su ++ new_segments v).
Proof.
  intros P E S. unfold model.JoinSegment. rewrite S.
  destruct (JoinRoute_paths r (model.newClientRoute v) _ _ P
              (newClientRoute_path v) E eq_refl) as [J P'].
  split; [now rewrite J|exact P'].
Qed.

Lemma JoinSegments_paths (vs : list string) (r : model.clientRoute)
      (su : list string) :
  Forall (fun v => strings.Contains v "/" = false) vs ->
  path_of (model.url r) su -> model.err r = None ->
  model.err (model.JoinSegments r vs) = None
  /\ path_of (model.url (model.JoinSegments r vs))
             (su ++ flat_map new_segments vs).
Proof.
  intros F. revert r su. induction F as [|v vs Hv _ IH]; intros r su P E.
  - cbn [flat_map]. now rewrite app_nil_r.
  - rewrite JoinSegments_cons. cbn [flat_map]. rewrite app_assoc.
    destruct (JoinSegment_paths r v su P E Hv) as [E' P']. now apply IH.
Qed.

Lemma tokens_real (ts : list string) :
  Forall (fun t => token t = true) ts ->
  Forall (fun t => real t = true /\ strings.Contains t "/" = false) ts.
Proof.
  intros T. eapply Forall_impl; [|exact T].
  intros t Ht. apply token_inv in Ht. now split.
Qed.

Lemma concat_tokens_inj (ts ts' : list string) :
  Forall (fun t => token t = true) ts -> Forall (fun t => token t = true) ts' ->
  String.concat "/" ts = String.concat "/" ts' -> ts = ts'.
Proof.
  intros T T' E.
  rewrite <- (proj1 (tokens_elements _ T)), <- (proj1 (tokens_elements _ T')).
  now rewrite E.
Qed.

Section Resolution.

Variable V : model.Validators.

(** X4.  An error-free builder resolves to a clean absolute path: ['/']
    followed by its segments joined by ['/'], where no segment is
    empty, ["."] or [".."] or holds a slash; [URL] returns that same
    string as [Path], with the [RawPath] of the builder's own URL. *)
Theorem built_resolves_to_segments (r : model.clientRoute) :
  built V r -> model.err r = None ->
  model.String r = (String "/" (String.concat "/" (segments (model.url r))), None)
  /\ model.URL r
     = (Some {| url.Path := String "/" (String.concat "/" (segments (model.url r)));
                url.RawPath := url.RawPath (model.url r) |}, None)
  /\ Forall (fun t => real t = true /\ strings.Contains t "/" = false)
            (segments (model.url r)).
Proof.
  intros B%built_clean E.
  pose proof (String_path_of _ _ B E) as S.
  split; [exact S|]. split; [now apply URL_of_String|].
  apply tokens_real, B.
Qed.

(** X6.  On an error-free builder [JoinSegment] of a value without a
    slash never fails and appends the segments of [newClientRoute] of
    that value: its escaped form, nothing for [""], ["."] and [".."],
    and ["*"] as it is. *)
Theorem JoinSegment_appends (r : model.clientRoute) (v : string) :
  built V r -> model.err r = None -> strings.Contains v "/" = false ->
  model.err (model.JoinSegment r v) = None
  /\ segments (model.url (model.JoinSegment r v))
     = (segments (model.url r) ++ new_segments v)%list
  /\ model.String (model.JoinSegment r v)
     = (String "/" (String.concat "/" (segments (model.url r) ++ new_segments v)),
        None).
Proof.
  intros B%built_clean E S.
  destruct (JoinSegment_paths r v _ B E S) as [E' P].
  split; [exact E'|]. split; [exact (path_of_segments _ _ P)|].
  exact (String_path_of _ _ P E').
Qed.

(** X7.  [JoinSegments] of values without slashes, on an error-free
    builder, never fails and appends the segments of each value in
    order. *)
Theorem JoinSegments_appends (r : model.clientRoute) (vs : list string) :
  built V r -> model.err r = None ->
  Forall (fun v => strings.Contains v "/" = false) vs ->
  model.err (model.JoinSegments r vs) = None
  /\ segments (model.url (model.JoinSegments r vs))
     = (segments (model.url r) ++ flat_map new_segments vs)%list
  /\ model.String (model.JoinSegments r vs)
     = (String "/" (String.concat "/" (segments (model.url r)
                                        ++ flat_map new_segments vs)), None).
Proof.
  intros B%built_clean E F.
  destruct (JoinSegments_paths vs r _ F B E) as [E' P].
  split; [exact E'|]. split; [exact (path_of_segments _ _ P)|].
  exact (String_path_of _ _ P E').
Qed.

(** X9.  The empty builder is a unit of [JoinRoute] up to resolution:
    joining it on either side does not change what a builder resolves
    to. *)
Theorem JoinRoute_empty_unit (r : model.clientRoute) :
  built V r ->
  model.String (model.JoinRoute r model.empty) = model.String r
  /\ model.String (model.JoinRoute model.empty r) = model.String r.
Proof.
  intros B%built_clean. destruct (model.err r) as [e|] eqn:E.
  - rewrite (JoinRoute_failed r _ e E).
    rewrite (JoinRoute_other_failed model.empty r e eq_refl E).
    unfold model.String. rewrite E. now split.
  - destruct (JoinRoute_paths r model.empty _ _ B path_of_zero E eq_refl) as [J P].
    destruct (JoinRoute_paths model.empty r _ _ path_of_zero B eq_refl E) as [J' P'].
    rewrite (String_path_of _ _ P), (String_path_of _ _ P'), (String_path_of _ _ B E).
    + now rewrite app_nil_r.
    + now rewrite J'.
    + now rewrite J.
Qed.

(** X12.  The segments [""], ["."] and [".."] are dropped without an
    error: joining one to an error-free builder leaves what it resolves
    to as it was, so [".."] never removes an earlier segment. *)
Theorem dot_segments_dropped (r : model.clientRoute) (v : string) :
  built V r -> model.err r = None ->
  v = "" \/ v = "." \/ v = ".." ->
  model.String (model.JoinSegment r v) = model.String r
  /\ segments (model.url (model.JoinSegment r v)) = segments (model.url r).
Proof.
  intros B%built_clean E H.
  assert (S : strings.Contains v "/" = false)
    by (destruct H as [->|[->| ->]]; reflexivity).
  assert (N : new_segments v = [])
    by (destruct H as [->|[->| ->]]; reflexivity).
  destruct (JoinSegment_paths r v _ B E S) as [E' P].
  rewrite N, app_nil_r in P.
  split; [|exact (path_of_segments _ _ P)].
  now rewrite (String_path_of _ _ P E'), (String_path_of _ _ B E).
Qed.

(** X11.  A typed join whose validator accepts a value without a slash
    resolves, on an error-free builder, like [JoinSegment]: the value's
    segments are appended and there is no error. *)
Theorem typed_join_accepts (r : model.clientRoute) (v : string) :
  built V r -> model.err r = None -> strings.Contains v "/" = false ->
  let appended :=
    (String "/" (String.concat "/" (segments (model.url r) ++ new_segments v)),
     @None error) in
  (model.IsValidId V v = true -> model.String (model.JoinId V r v) = appended)
  /\ (model.IsValidUsername V v = true ->
      model.String (model.JoinUsername V r v) = appended)
  /\ (model.IsValidTeamName V v = true ->
      model.String (model.JoinTeamname V r v) = appended)
  /\ (model.IsValidChannelIdentifier V v = true ->
      model.String (model.JoinChannelname V r v) = appended)
  /\ (model.IsValidEmail V v = true ->
      model.String (model.JoinEmail V r v) = appended)
  /\ (model.IsValidEmojiName V v = None ->
      model.String (model.JoinEmojiname V r v) = appended).
Proof.
  intros B%built_clean E S appended.
  destruct (JoinSegment_paths r v _ B E S) as [E' P].
  pose proof (String_path_of _ _ P E') as R. fold appended in R.
  unfold model.JoinId, model.JoinUsername, model.JoinTeamname,
    model.JoinChannelname, model.JoinEmail, model.JoinEmojiname.
  repeat match goal with |- _ /\ _ => split end; intros ->; exact R.
Qed.

End Resolution.

(** ** Raw segments and the resolved path *)

Lemma decode_app (a b : string) :
  url.malformed a = None -> url.decode (a ++ b) = url.decode a ++ url.decode b.
Proof.
  remember (String.length a) as n eqn:Hn.
  revert a Hn. induction n as [n IH] using lt_wf_ind. intros a Hn Ha.
  destruct a as [|c a]; [reflexivity|].
  cbn [url.malformed url.decode append] in *.
  destruct (Ascii.eqb c "%").
  - destruct a as [|x [|y a]]; try discriminate.
    cbn [append]. destruct (url.ishex x && url.ishex y); [|discriminate].
    rewrite (IH (String.length a)); [reflexivity|cbn in Hn; lia|reflexivity|assumption].
  - rewrite (IH (String.length a)); [reflexivity|cbn in Hn; lia|reflexivity|assumption].
Qed.

Lemma new_segments_raw (v : string) :
  raw_ok v = true ->
  exists t, new_segments v = [t] /\ url.malformed t = None /\ url.decode t = v.
Proof.
  unfold raw_ok, real, new_segments.
  intros [[[N0 N1]%andb_true_iff N2]%andb_true_iff _]%andb_true_iff.
  apply negb_true_iff in N0, N1, N2. rewrite N0, N1, N2. cbn [orb].
  destruct (String.eqb_spec v "*") as [->|_].
  - now exists "*".
  - exists (url.PathEscape v). split; [reflexivity|].
    split; [apply malformed_escape|apply decode_escape].
Qed.

Lemma raw_ok_slash_free (vs : list string) :
  Forall (fun v => raw_ok v = true) vs ->
  Forall (fun v => strings.Contains v "/" = false) vs.
Proof.
  intros F. eapply Forall_impl; [|exact F]. unfold raw_ok.
  intros v [_ H]%andb_true_iff. now apply negb_true_iff in H.
Qed.

Lemma decode_new_segments (vs : list string) :
  Forall (fun v => raw_ok v = true) vs ->
  url.decode (String.concat "/" (flat_map new_segments vs)) = String.concat "/" vs.
Proof.
  induction 1 as [|v vs Hv Hvs IH]; [reflexivity|].
  destruct (new_segments_raw v Hv) as (t & Nt & Mt & Dt).
  cbn [flat_map]. rewrite Nt. cbn [app].
  destruct Hvs as [|w ws Hw Hws]; [exact Dt|].
  destruct (new_segments_raw w Hw) as (t' & Nt' & _).
  cbn [flat_map] in *. rewrite Nt' in *. cbn [app] in *.
  change (String.concat "/" (t :: t' :: flat_map new_segments ws))
    with (t ++ String "/" (String.concat "/" (t' :: flat_map new_segments ws))).
  rewrite (decode_app _ _ Mt), Dt.
  change (url.decode (String "/" ?x)) with (String "/" (url.decode x)).
  cbn [url.decode Ascii.eqb Bool.eqb]. now rewrite IH.
Qed.

Lemma new_segments_inj (vs ws : list string) :
  Forall (fun v => raw_ok v = true) vs -> Forall (fun v => raw_ok v = true) ws ->
  flat_map new_segments vs = flat_map new_segments ws -> vs = ws.
Proof.
  intros F. revert ws. induction F as [|v vs Hv _ IH]; intros ws G E.
  - destruct G as [|w ws Hw _]; [reflexivity|].
    destruct (new_segments_raw w Hw) as (t & Nt & _).
    cbn [flat_map] in E. now rewrite Nt in E.
  - destruct (new_segments_raw v Hv) as (t & Nt & _ & Dt).
    destruct G as [|w ws Hw Hws]; cbn [flat_map] in E; rewrite Nt in E;
      [discriminate|].
    destruct (new_segments_raw w Hw) as (t' & Nt' & _ & Dt').
    rewrite Nt' in E. injection E as Et E. f_equal; [congruence|now apply IH].
Qed.

(** X5.  [newClientRoute] never fails and makes at most one segment:
    the text after the leading slash of what it resolves to holds no
    slash, even when the value does. *)
Theorem newClientRoute_one_segment (v : string) :
  model.err (model.newClientRoute v) = None
  /\ segments (model.url (model.newClientRoute v)) = new_segments v
  /\ length (segments (model.url (model.newClientRoute v))) <= 1
  /\ model.String (model.newClientRoute v)
     = (String "/" (String.concat "/" (new_segments v)), None)
  /\ strings.Contains (String.concat "/" (new_segments v)) "/" = false.
Proof.
  pose proof (newClientRoute_path v) as P.
  split; [reflexivity|]. split; [exact (path_of_segments _ _ P)|].
  unfold segments. rewrite (path_of_segments _ _ P).
  split; [|split; [exact (String_path_of _ _ P eq_refl)|]];
    unfold new_segments;
    destruct (_ || _); try destruct (String.eqb v "*"); cbn; try lia; try reflexivity.
  apply PathEscape_slash_free.
Qed.

(** X8.  Round trip through the builder: raw segments that are
    neither empty, ["."], [".."] nor hold a slash, joined to the empty
    builder, resolve without error to a string that unescapes to ['/']
    followed by the raw segments joined by ['/']. *)
Theorem resolved_path_unescapes (vs : list string) :
  Forall (fun v => raw_ok v = true) vs ->
  exists s, model.String (model.JoinSegments model.empty vs) = (s, None)
            /\ url.PathUnescape s = (String "/" (String.concat "/" vs), None).
Proof.
  intros F.
  destruct (JoinSegments_paths vs model.empty [] (raw_ok_slash_free _ F)
              path_of_zero eq_refl) as [E P].
  cbn [app] in P. eexists. split; [exact (String_path_of _ _ P E)|].
  pose proof (wellformed_app "/" _ eq_refl (tokens_wellformed _ (proj1 P))) as W.
  cbn [append] in W. unfold wellformed in W. apply andb_true_iff in W as [M _].
  unfold url.PathUnescape, url.unescape.
  destruct (url.malformed _); [discriminate|].
  change (url.decode (String "/" ?x)) with (String "/" (url.decode x)).
  cbn [url.decode Ascii.eqb Bool.eqb]. now rewrite decode_new_segments.
Qed.

Lemma resolved_path_unescapes_witness :
  exists s, model.String (model.JoinSegments model.empty ["hello world"; "*"; "a%b"])
            = (s, None)
            /\ url.PathUnescape s = ("/hello world/*/a%b", None).
Proof.
  apply (resolved_path_unescapes ["hello world"; "*"; "a%b"]).
  repeat constructor.
Defined.

Section Injective.

Variable V : model.Validators.

(** X10.  Different raw segments never resolve to the same path: on an
    error-free builder, two lists of raw segments (none empty, ["."],
    [".."] or with a slash) that resolve to the same string are the
    same list. *)
Theorem JoinSegments_injective (r : model.clientRoute) (vs ws : list string) :
  built V r -> model.err r = None ->
  Forall (fun v => raw_ok v = true) vs -> Forall (fun v => raw_ok v = true) ws ->
  model.String (model.JoinSegments r vs) = model.String (model.JoinSegments r ws) ->
  vs = ws.
Proof.
  intros B%built_clean E F G H.
  destruct (JoinSegments_paths vs r _ (raw_ok_slash_free _ F) B E) as [Ev Pv].
  destruct (JoinSegments_paths ws r _ (raw_ok_slash_free _ G) B E) as [Ew Pw].
  rewrite (String_path_of _ _ Pv Ev), (String_path_of _ _ Pw Ew) in H.
  injection H as H.
  apply (concat_tokens_inj _ _ (proj1 Pv) (proj1 Pw)) in H.
  apply app_inv_head in H. now apply new_segments_inj.
Qed.

End Injective.

(** ** Instances of the further properties *)

Lemma built_resolves_to_segments_witness :
  let r := model.JoinSegments (model.newClientRoute "api") ["v4"; "hello world"] in
  model.String r = (String "/" (String.concat "/" (segments (model.url r))), None)
  /\ model.URL r
     = (Some {| url.Path := String "/" (String.concat "/" (segments (model.url r)));
                url.RawPath := url.RawPath (model.url r) |}, None)
  /\ Forall (fun t => real t = true /\ strings.Contains t "/" = false)
            (segments (model.url r)).
Proof.
  exact (built_resolves_to_segments sample _
           (built_JoinSegments sample _ ["v4"; "hello world"] (built_new sample "api"))
           eq_refl).
Defined.

Lemma JoinSegment_appends_witness :
  let r := model.newClientRoute "api" in
  model.err (model.JoinSegment r "a;b") = None
  /\ segments (model.url (model.JoinSegment r "a;b"))
     = (segments (model.url r) ++ new_segments "a;b")%list
  /\ model.String (model.JoinSegment r "a;b")
     = (String "/" (String.concat "/" (segments (model.url r) ++ new_segments "a;b")),
        None).
Proof.
  exact (JoinSegment_appends sample _ "a;b" (built_new sample "api")
           eq_refl eq_refl).
Defined.

Lemma JoinSegments_appends_witness :
  let r := model.newClientRoute "api" in
  let vs := ["v4"; ".."; "users"; ""; "me"] in
  model.err (model.JoinSegments r vs) = None
  /\ segments (model.url (model.JoinSegments r vs))
     = (segments (model.url r) ++ flat_map new_segments vs)%list
  /\ model.String (model.JoinSegments r vs)
     = (String "/" (String.concat "/" (segments (model.url r)
                                        ++ flat_map new_segments vs)), None).
Proof.
  refine (JoinSegments_appends sample _ ["v4"; ".."; "users"; ""; "me"]
            (built_new sample "api") eq_refl _).
  repeat (apply Forall_cons; [reflexivity|]). apply Forall_nil.
Defined.

Lemma JoinRoute_empty_unit_witness :
  let r := model.JoinSegment (model.newClientRoute "api") "a:b" in
  model.String (model.JoinRoute r model.empty) = model.String r
  /\ model.String (model.JoinRoute model.empty r) = model.String r.
Proof.
  exact (JoinRoute_empty_unit sample _
           (built_JoinSegment sample _ "a:b" (built_new sample "api"))).
Defined.

Lemma dot_segments_dropped_witness :
  let r := model.JoinSegment (model.newClientRoute "api") "v4" in
  model.String (model.JoinSegment r "..") = model.String r
  /\ segments (model.url (model.JoinSegment r "..")) = segments (model.url r).
Proof.
  exact (dot_segments_dropped sample _ ".."
           (built_JoinSegment sample _ "v4" (built_new sample "api"))
           eq_refl (or_intror (or_intror eq_refl))).
Defined.

Lemma typed_join_accepts_witness :
  let r := model.newClientRoute "api" in
  model.String (model.JoinUsername sample r "john.doe")
  = (String "/" (String.concat "/" (segments (model.url r) ++ new_segments "john.doe")),
     None).
Proof.
  exact (proj1 (proj2 (typed_join_accepts sample (model.newClientRoute "api")
                         "john.doe" (built_new sample "api") eq_refl eq_refl))
               eq_refl).
Defined.

Lemma JoinSegments_injective_witness :
  ["users"; "a b"] = ["users"; "a b"].
Proof.
  refine (JoinSegments_injective sample (model.newClientRoute "api")
            ["users"; "a b"] ["users"; "a b"] (built_new sample "api")
            eq_refl _ _ eq_refl);
    repeat (apply Forall_cons; [reflexivity|]); apply Forall_nil.
Defined.
